(** * Data-quality validation engine: rule execution and verdicts

    A shallow embedding of [dq/dq_checks.py] (class [DataQualityChecker]):
    the pandas operations the checks use, the rule dispatcher
    [_execute_pandas_check], the verdict policy [check_rule] and the per-layer
    driver [run_checks], followed by the properties of the specification that
    were checked against them.

    Conventions of the embedding.
    - A Python [dict] read from YAML (a rule) is a record of optional fields:
      a missing key is [None], and subscripting it raises [KeyError].
    - The dictionary of loaded tables and [self.results] are finite maps
      keyed by strings.
    - Exceptions are values of type [exn]; code that may raise lives in the
      [result] monad, code that also prints in the [io] monad (output log
      plus result).
    - A finite float is embedded as the rational it denotes; the comparisons
      of the checks are exact on those, so nothing depends on rounding. *)

From Stdlib Require Import ZArith QArith Qcanon String Ascii List Lia.
From stdpp Require Import base numbers option list gmap strings.
Import ListNotations.

Local Open Scope string_scope.
Local Open Scope list_scope.
Local Open Scope Z_scope.

(** ** Python substrate: exceptions and string membership *)

Module Py.

Inductive exn : Type :=
| KeyError (key : string)
| TypeError (msg : string)
| ValueError (msg : string).

(** [str(e)]: a [KeyError] prints the [repr] of its key. *)
Definition str (e : exn) : string :=
  match e with
  | KeyError k => "'" +:+ k +:+ "'"
  | TypeError m => m
  | ValueError m => m
  end.

Definition result (A : Type) : Type := exn + A.

Definition ret {A} (a : A) : result A := inr a.
Definition raise {A} (e : exn) : result A := inl e.
Definition bind {A B} (m : result A) (f : A -> result B) : result B :=
  match m with
  | inl e => inl e
  | inr a => f a
  end.

(** [rule[key]] on a dictionary whose entry for [key] is [field]. *)
Definition subscript {A} (key : string) (field : option A) : result A :=
  match field with
  | Some v => ret v
  | None => raise (KeyError key)
  end.

(** [d.get(key, default)]. *)
Definition get {A} (field : option A) (default : A) : A :=
  match field with
  | Some v => v
  | None => default
  end.

(** [needle in hay] on two strings: substring test. *)
Fixpoint str_in (needle hay : string) : bool :=
  if String.prefix needle hay then true
  else match hay with
       | EmptyString => false
       | String _ rest => str_in needle rest
       end.

Fixpoint traverse {A B} (f : A -> result B) (l : list A) : result (list B) :=
  match l with
  | [] => ret []
  | x :: xs =>
      bind (f x) (fun y => bind (traverse f xs) (fun ys => ret (y :: ys)))
  end.

End Py.

Import Py.

Notation "'let*' x ':=' m 'in' k" := (Py.bind m (fun x => k))
  (at level 10, x name, m at level 100, k at level 200).
Notation "'let*' ' pat ':=' m 'in' k" :=
  (Py.bind m (fun x => match x with pat => k end))
  (at level 10, pat pattern, m at level 100, k at level 200).

(** ** The pandas operations used by the checks *)

Module Pd.

(** A cell of a table read by [pd.read_csv]: a missing value, a string, a
    number, or (after [pd.to_datetime]) a timestamp.  [NaT] is [NaN]. *)
Inductive Cell : Type :=
| NaN
| Str (s : string)
| Num (q : Qc)
| Timestamp (t : Z).

#[global] Instance Cell_eq_dec : EqDecision Cell.
Proof. solve_decision. Defined.

(** A frame: the column labels and the rows, cell [i] of a row belonging to
    column [i]; a row shorter than the header is padded with [NaN]. *)
Record DataFrame : Type := mkDataFrame {
  columns : list string;
  rows : list (list Cell)
}.

Definition len (df : DataFrame) : Z := Z.of_nat (length (rows df)).

Fixpoint index_of (c : string) (cs : list string) : option nat :=
  match cs with
  | [] => None
  | c' :: cs' => if String.eqb c c' then Some 0%nat else S <$> index_of c cs'
  end.

Definition has_column (df : DataFrame) (c : string) : bool :=
  bool_decide (is_Some (index_of c (columns df))).

(** [df[c]] *)
Definition getitem (df : DataFrame) (c : string) : result (list Cell) :=
  match index_of c (columns df) with
  | None => raise (KeyError c)
  | Some i => ret (map (fun r => nth i r NaN) (rows df))
  end.

Definition normalize (df : DataFrame) (r : list Cell) : list Cell :=
  map (fun i => nth i r NaN) (seq 0 (length (columns df))).

(** [df[c] = s] *)
Definition setitem (df : DataFrame) (c : string) (s : list Cell) : DataFrame :=
  match index_of c (columns df) with
  | Some i =>
      {| columns := columns df;
         rows := imap (fun n r => list_insert i (nth n s NaN) (normalize df r))
                      (rows df) |}
  | None =>
      {| columns := columns df ++ [c];
         rows := imap (fun n r => normalize df r ++ [nth n s NaN]) (rows df) |}
  end.

(** Selection by a boolean mask: [xs[mask]]. *)
Fixpoint keep {A} (xs : list A) (mask : list bool) : list A :=
  match xs, mask with
  | x :: xs', b :: mask' => if b then x :: keep xs' mask' else keep xs' mask'
  | _, _ => []
  end.

Definition select (df : DataFrame) (mask : list bool) : DataFrame :=
  {| columns := columns df; rows := keep (rows df) mask |}.

(** [mask.sum()] *)
Definition sum (mask : list bool) : Z :=
  Z.of_nat (length (filter (fun b => b = true) mask)).

Definition mask_or (m1 m2 : list bool) : list bool := zip_with orb m1 m2.
Definition mask_not (m : list bool) : list bool := map negb m.

(** Ordered comparison of a column with a number.  A string (or a
    timestamp) in the column makes the comparison raise; a missing value
    compares false. *)
Definition not_supported (op left : string) : exn :=
  TypeError ("'" +:+ op +:+ "' not supported between instances of '"
             +:+ left +:+ "' and a number").

Definition compare_scalar (op : string) (test : Qc -> bool) (s : list Cell)
  : result (list bool) :=
  traverse (fun x =>
    match x with
    | Num q => ret (test q)
    | NaN => ret false
    | Str _ => raise (not_supported op "str")
    | Timestamp _ => raise (not_supported op "Timestamp")
    end) s.

Definition lt (s : list Cell) (c : Qc) : result (list bool) :=
  compare_scalar "<" (fun q => bool_decide (q < c)%Qc) s.
Definition gt (s : list Cell) (c : Qc) : result (list bool) :=
  compare_scalar ">" (fun q => bool_decide (c < q)%Qc) s.

(** [s == v], [s.isna()], [s.isin(vs)] never raise. *)
Definition eq (s : list Cell) (v : Cell) : list bool :=
  map (fun x => bool_decide (x = v)) s.
Definition isna (s : list Cell) : list bool :=
  map (fun x => bool_decide (x = NaN)) s.
Definition isin (s : list Cell) (vs : list Cell) : list bool :=
  map (fun x => bool_decide (x ∈ vs)) s.

(** [s.unique()]: the distinct values in order of first appearance. *)
Fixpoint unique_from {A} `{EqDecision A} (seen s : list A) : list A :=
  match s with
  | [] => []
  | x :: xs =>
      if bool_decide (x ∈ seen) then unique_from seen xs
      else x :: unique_from (x :: seen) xs
  end.
Definition unique {A} `{EqDecision A} (s : list A) : list A :=
  unique_from [] s.

(** [df.dropna()]: the rows without a missing value in any column. *)
Definition dropna (df : DataFrame) : DataFrame :=
  {| columns := columns df;
     rows := filter (fun r => NaN ∉ normalize df r) (rows df) |}.

(** *** Ordering of values, for [sort_values] and for group keys

    Numbers sort numerically, strings by code unit, and missing values go
    last.  The sort is an insertion sort, hence stable. *)
Definition rank (x : Cell) : nat :=
  match x with Num _ => 0 | Timestamp _ => 1 | Str _ => 2 | NaN => 3 end.

Definition cell_leb (x y : Cell) : bool :=
  match x, y with
  | Num a, Num b => bool_decide (a <= b)%Qc
  | Timestamp a, Timestamp b => (a <=? b)%Z
  | Str a, Str b => String.leb a b
  | _, _ => (rank x <=? rank y)%nat
  end.

Definition pair_leb (x y : Cell * Cell) : bool :=
  if bool_decide (x.1 = y.1) then cell_leb x.2 y.2 else cell_leb x.1 y.1.

Fixpoint insert_sorted {A} (leb : A -> A -> bool) (x : A) (l : list A) : list A :=
  match l with
  | [] => [x]
  | y :: ys => if leb x y then x :: l else y :: insert_sorted leb x ys
  end.

Definition sort {A} (leb : A -> A -> bool) (l : list A) : list A :=
  foldr (insert_sorted leb) [] l.

Definition is_str (x : Cell) : bool := match x with Str _ => true | _ => false end.
Definition is_num (x : Cell) : bool := match x with Num _ => true | _ => false end.
Definition mixed (s : list Cell) : bool := existsb is_str s && existsb is_num s.

(** [df.sort_values([c1, c2])] *)
Definition sort_values (df : DataFrame) (c1 c2 : string) : result DataFrame :=
  let* k1 := getitem df c1 in
  let* k2 := getitem df c2 in
  if mixed k1 || mixed k2
  then raise (not_supported "<" "str")
  else
    let keyed := zip (zip k1 k2) (rows df) in
    ret {| columns := columns df;
           rows := map snd (sort (fun a b => pair_leb a.1 b.1) keyed) |}.

(** *** [left.merge(right, on=key, how='left', indicator=True)]

    Every row of [left] is paired with each row of [right] carrying the same
    key (marked [both]); a row without a partner is kept once, padded with
    missing values (marked [left_only]).  Columns present on both sides
    other than the key receive the suffixes [_x] and [_y]. *)
Definition remove_nth {A} (i : nat) (l : list A) : list A :=
  firstn i l ++ skipn (S i) l.

Definition merge_left_indicator (left right : DataFrame) (key : string)
  : result DataFrame :=
  let* i := subscript key (index_of key (columns left)) in
  let* j := subscript key (index_of key (columns right)) in
  let lk := map (fun r => nth i r NaN) (rows left) in
  let rk := map (fun r => nth j r NaN) (rows right) in
  if (existsb is_str lk && existsb is_num rk && negb (existsb is_str rk))
     || (existsb is_str rk && existsb is_num lk && negb (existsb is_str lk))
  then raise (ValueError "You are trying to merge on object and float64 columns")
  else if bool_decide ("_merge" ∈ columns left ++ columns right)
  then raise (ValueError "Cannot use name of an existing column for indicator column")
  else
    let rcols := remove_nth j (columns right) in
    let lnames := map (fun c => if bool_decide (c ≠ key ∧ c ∈ rcols)
                                then c +:+ "_x" else c) (columns left) in
    let rnames := map (fun c => if bool_decide (c ∈ columns left)
                                then c +:+ "_y" else c) rcols in
    let pad := map (fun _ => NaN) rcols in
    let joined (l : list Cell) : list (list Cell) :=
      let k := nth i l NaN in
      match filter (fun r => nth j r NaN = k) (rows right) with
      | [] => [normalize left l ++ pad ++ [Str "left_only"]]
      | partners =>
          map (fun r => normalize left l ++ remove_nth j (normalize right r)
                        ++ [Str "both"]) partners
      end in
    ret {| columns := lnames ++ rnames ++ ["_merge"];
           rows := flat_map joined (rows left) |}.

(** *** Grouping

    Group keys are the distinct non-missing values, sorted. *)
Definition group_keys (ks : list Cell) : list Cell :=
  sort cell_leb (filter (fun k => k ≠ NaN) (unique ks)).

(** [df.groupby(key).agg({c: f}).reset_index()] *)
Definition groupby_agg (df : DataFrame) (key c : string)
    (f : list Cell -> Cell) : result DataFrame :=
  let* ks := getitem df key in
  let* vs := getitem df c in
  ret {| columns := [key; c];
         rows := map (fun k => [k; f (keep vs (eq ks k))]) (group_keys ks) |}.

(** [df.groupby([k1, k2]).size().reset_index(name=count)] *)
Definition groupby_size (df : DataFrame) (k1 k2 count : string)
  : result DataFrame :=
  let* s1 := getitem df k1 in
  let* s2 := getitem df k2 in
  let present := filter (fun p : Cell * Cell => p.1 ≠ NaN ∧ p.2 ≠ NaN) (zip s1 s2) in
  let keys := sort pair_leb (unique present) in
  ret {| columns := [k1; k2; count];
         rows := map (fun k =>
                   [k.1; k.2;
                    Num (Q2Qc (inject_Z (Z.of_nat (length (filter (fun p => p = k) present)))))])
                 keys |}.

(** [df.groupby(key)[c].shift(1)]: for each row, the value of [c] in the
    previous row of the same group; missing when there is none, and for
    rows whose key is missing. *)
Fixpoint assoc (k : Cell) (l : list (Cell * Cell)) : option Cell :=
  match l with
  | [] => None
  | (k', v) :: l' => if bool_decide (k = k') then Some v else assoc k l'
  end.

Fixpoint shift_within (last : list (Cell * Cell)) (ks vs : list Cell) : list Cell :=
  match ks, vs with
  | k :: ks', v :: vs' =>
      if bool_decide (k = NaN) then NaN :: shift_within last ks' vs'
      else default NaN (assoc k last) :: shift_within ((k, v) :: last) ks' vs'
  | _, _ => []
  end.

Definition groupby_shift (df : DataFrame) (key c : string) : result (list Cell) :=
  let* ks := getitem df key in
  let* vs := getitem df c in
  ret (shift_within [] ks vs).

(** [a < b] on two datetime columns: false wherever either side is [NaT]. *)
Definition lt_series (a b : list Cell) : list bool :=
  zip_with (fun x y =>
    match x, y with
    | Timestamp s, Timestamp t => (s <? t)%Z
    | _, _ => false
    end) a b.

Definition of_datetime (t : option Z) : Cell :=
  match t with Some z => Timestamp z | None => NaN end.

End Pd.

Import Pd.

(** ** Rules, verdicts and console output *)

(** The value under a rule's [layer] key: YAML gives a string or a list. *)
Inductive LayerSpec : Type :=
| LayerStr (s : string)
| LayerList (l : list string).

(** [layer in spec] *)
Definition layer_in (layer : string) (spec : LayerSpec) : bool :=
  match spec with
  | LayerStr s => str_in layer s
  | LayerList l => bool_decide (layer ∈ l)
  end.

(** A rule record as parsed from the YAML catalogue: any key may be absent. *)
Module Rule.
Record t : Type := mk {
  rule_id : option string;
  name : option string;
  category : option string;
  severity : option string;
  check_sql : option string;
  threshold : option Z;
  impact : option string;
  layer : option LayerSpec
}.
End Rule.

Inductive Status : Type := PASS | WARNING | FAIL | ERROR.

#[global] Instance Status_eq_dec : EqDecision Status.
Proof. solve_decision. Defined.

(** The dictionary built by [check_rule]. *)
Module Verdict.
Record t : Type := mk {
  rule_id : string;
  rule_name : string;
  category : string;
  severity : string;
  status : Status;
  violations : Z;
  threshold : Z;
  impact : string;
  details : list Cell
}.
End Verdict.

(** What the engine prints, one constructor per [print] of the source. *)
Inductive event : Type :=
| Banner (layer : string)
| LoadingData (layer : string)
| Loaded (table : string) (nrows : Z)
| NoDataFound (layer : string)
| LoadedTables (n : nat)
| ExecutingRules
| RuleStarted (rule_id name : string)
| RuleError (rule_id msg : string)
| PrintPass
| PrintWarning (violations : Z)
| PrintFail (violations : Z)
| PrintError
| Summary (passed warnings failed errors total : nat)
| FailureDetail (v : Verdict.t)
| WarningDetail (v : Verdict.t).

(** Output log together with a result or the exception that ended the
    computation; everything printed before a [raise] stays in the log. *)
Definition io (A : Type) : Type := list event * result A.

Definition io_ret {A} (a : A) : io A := ([], inr a).
Definition io_bind {A B} (m : io A) (f : A -> io B) : io B :=
  match m with
  | (out, inl e) => (out, inl e)
  | (out, inr a) => let '(out', r) := f a in (out ++ out', r)
  end.
Definition print (e : event) : io unit := ([e], inr tt).
Definition lift {A} (r : result A) : io A := ([], r).

Notation "'let!' x ':=' m 'in' k" := (io_bind m (fun x => k))
  (at level 10, x name, m at level 100, k at level 200).
Notation "'let!' ' pat ':=' m 'in' k" :=
  (io_bind m (fun x => match x with pat => k end))
  (at level 10, pat pattern, m at level 100, k at level 200).
Notation "m ';;' k" := (io_bind m (fun _ => k))
  (at level 100, k at level 200, right associativity).

Definition log {A} (m : io A) : list event := m.1.
Definition outcome {A} (m : io A) : result A := m.2.

(** ** The checker *)

Section Engine.

(** [pd.to_datetime] on a column: the parsed instants ([None] for [NaT]), or
    the exception pandas raises on text it cannot parse.  The parser belongs
    to pandas; every result below holds whatever it does. *)
Variable to_datetime : list Cell -> result (list (option Z)).

(** [table in data] and [data[table]] *)
Definition has_table (table : string) (data : gmap string DataFrame) : bool :=
  bool_decide (is_Some (data !! table)).
Definition table (data : gmap string DataFrame) (t : string) : result DataFrame :=
  subscript t (data !! t).

Definition no_violation : Z * list Cell := (0, []).

(** [(x == 'PASS').sum() / len(x) * 100] *)
Definition yield_pct (x : list Cell) : Cell :=
  Num (Q2Qc (inject_Z (Pd.sum (Pd.eq x (Str "PASS"))))
       / Q2Qc (inject_Z (Z.of_nat (length x)))
       * Q2Qc (inject_Z 100))%Qc.

(** The double written [0.001] in the source, as the rational it denotes. *)
Definition one_thousandth : Qc :=
  Q2Qc (1152921504606847 # 1152921504606846976).

(** The body of the [try] block of [_execute_pandas_check]: the violation
    count and the collected examples, or the exception raised on the way. *)
Definition try_pandas_check (rule : Rule.t) (data : gmap string DataFrame)
  : result (Z * list Cell) :=
  let* category := subscript "category" (Rule.category rule) in
  if String.eqb category "REFERENTIAL_INTEGRITY" then
    let* check_sql := subscript "check_sql" (Rule.check_sql rule) in
    if str_in "wafer_tests" check_sql && str_in "wafer_batches" check_sql then
      if has_table "wafer_tests" data && has_table "wafer_batches" data then
        let* tests := table data "test_results" in
        let* batches := table data "wafer_batches" in
        let* merged := merge_left_indicator tests batches "batch_id" in
        let* indicator := getitem merged "_merge" in
        let left_only := select merged (Pd.eq indicator (Str "left_only")) in
        let* ids := getitem left_only "batch_id" in
        ret (len left_only, firstn 10 (unique ids))
      else ret no_violation
    else ret no_violation
  else if String.eqb category "RANGE" then
    let* check_sql := subscript "check_sql" (Rule.check_sql rule) in
    if str_in "yield_pct" check_sql then
      if has_table "test_results" data then
        let* tests := table data "test_results" in
        let* grouped := groupby_agg tests "batch_id" "pass_fail" yield_pct in
        let batch_yield := {| columns := ["batch_id"; "yield_pct"];
                              rows := rows grouped |} in
        let* y := getitem batch_yield "yield_pct" in
        let* low := lt y (Q2Qc 0) in
        let* high := gt y (Q2Qc (inject_Z 100)) in
        let invalid_yield := select batch_yield (mask_or low high) in
        let* ids := getitem invalid_yield "batch_id" in
        ret (len invalid_yield, firstn 10 ids)
      else ret no_violation
    else if str_in "defect_density" check_sql then
      if has_table "test_results" data then
        let* tests := table data "test_results" in
        let* d := getitem tests "defect_density" in
        let* low := lt d (Q2Qc 0) in
        let invalid := select tests low in
        let* ids := getitem invalid "wafer_id" in
        ret (len invalid, firstn 10 ids)
      else ret no_violation
    else if str_in "temperature" check_sql then
      if has_table "equipment_logs" data then
        let* logs := table data "equipment_logs" in
        let* t := getitem logs "temperature_c" in
        let* low := lt t (Q2Qc (inject_Z (-50))) in
        let* t' := getitem logs "temperature_c" in
        let* high := gt t' (Q2Qc (inject_Z 500)) in
        let invalid := select logs (mask_or low high) in
        let* ids := getitem invalid "equipment_id" in
        ret (len invalid, firstn 10 (unique ids))
      else ret no_violation
    else if str_in "pressure" check_sql then
      if has_table "equipment_logs" data then
        let* logs := table data "equipment_logs" in
        let* p := getitem logs "pressure_torr" in
        let* low := lt p one_thousandth in
        let* p' := getitem logs "pressure_torr" in
        let* high := gt p' (Q2Qc (inject_Z 1000)) in
        let invalid := select logs (mask_or low high) in
        ret (len invalid, [])
      else ret no_violation
    else ret no_violation
  else if String.eqb category "COMPLETENESS" then
    let* check_sql := subscript "check_sql" (Rule.check_sql rule) in
    if str_in "wafer_id" check_sql then
      if has_table "test_results" data then
        let* tests := table data "test_results" in
        let* w := getitem tests "wafer_id" in
        ret (Pd.sum (isna w) + Pd.sum (Pd.eq w (Str "")), [])
      else ret no_violation
    else if str_in "equipment_id" check_sql then
      if has_table "equipment_logs" data then
        let* logs := table data "equipment_logs" in
        let* e := getitem logs "equipment_id" in
        ret (Pd.sum (isna e) + Pd.sum (Pd.eq e (Str "")), [])
      else ret no_violation
    else if str_in "pass_fail" check_sql then
      if has_table "test_results" data then
        let* tests := table data "test_results" in
        let* pf := getitem tests "pass_fail" in
        let violations := Pd.sum (isna pf) in
        let* pf' := getitem tests "pass_fail" in
        let outside := select tests (mask_not (isin pf' [Str "PASS"; Str "FAIL"])) in
        ret (violations + len outside, [])
      else ret no_violation
    else ret no_violation
  else if String.eqb category "UNIQUENESS" then
    let* check_sql := subscript "check_sql" (Rule.check_sql rule) in
    if str_in "wafer_id" check_sql && str_in "batch_id" check_sql then
      if has_table "test_results" data then
        let* tests := table data "test_results" in
        let* sizes := groupby_size tests "batch_id" "wafer_id" "count" in
        let* n := getitem sizes "count" in
        let* many := gt n (Q2Qc (inject_Z 1)) in
        let duplicates := select sizes many in
        let* ids := getitem duplicates "wafer_id" in
        ret (len duplicates, firstn 10 ids)
      else ret no_violation
    else ret no_violation
  else if String.eqb category "TEMPORAL" then
    if has_table "test_results" data then
      let* name := subscript "name" (Rule.name rule) in
      if str_in "Process Step Sequence" name then
        let* tests := table data "test_results" in
        let* tests_sorted := sort_values tests "batch_id" "process_step_id" in
        let* prev := groupby_shift tests_sorted "batch_id" "start_time" in
        let tests_sorted := setitem tests_sorted "prev_time" prev in
        let* start := getitem tests_sorted "start_time" in
        let* start := to_datetime start in
        let tests_sorted := setitem tests_sorted "start_time" (map of_datetime start) in
        let* prev := getitem tests_sorted "prev_time" in
        let* prev := to_datetime prev in
        let tests_sorted := setitem tests_sorted "prev_time" (map of_datetime prev) in
        let* start := getitem tests_sorted "start_time" in
        let* prev := getitem tests_sorted "prev_time" in
        let invalid := dropna (select tests_sorted (lt_series start prev)) in
        let* ids := getitem invalid "batch_id" in
        ret (len invalid, firstn 10 (unique ids))
      else ret no_violation
    else ret no_violation
  else ret no_violation.

(** [_execute_pandas_check]: the [try] block and its handler, which reports
    the exception and returns the sentinel count [-1] with one diagnostic
    string.  The handler itself reads [rule['rule_id']]. *)
Definition _execute_pandas_check (rule : Rule.t) (data : gmap string DataFrame)
  : io (Z * list Cell) :=
  match try_pandas_check rule data with
  | inr found => io_ret found
  | inl e =>
      let! rule_id := lift (subscript "rule_id" (Rule.rule_id rule)) in
      print (RuleError rule_id (str e)) ;;
      io_ret (-1, [Str ("Error: " +:+ str e)])
  end.

(** The status cascade of [check_rule]; [rule['severity']] is read only
    once the count exceeds the threshold. *)
Definition decide_status (rule : Rule.t) (violations threshold : Z)
  : result Status :=
  if violations =? -1 then ret ERROR
  else if violations <=? threshold then ret PASS
  else
    let* severity := subscript "severity" (Rule.severity rule) in
    if String.eqb severity "CRITICAL" then ret FAIL
    else if String.eqb severity "HIGH" then ret FAIL
    else if String.eqb severity "MEDIUM" then ret WARNING
    else ret WARNING.

Definition check_rule (rule : Rule.t) (data : gmap string DataFrame)
  : io Verdict.t :=
  let! '(violations, details) := _execute_pandas_check rule data in
  let threshold := get (Rule.threshold rule) 0 in
  let! status := lift (decide_status rule violations threshold) in
  let! rule_id := lift (subscript "rule_id" (Rule.rule_id rule)) in
  let! name := lift (subscript "name" (Rule.name rule)) in
  let! category := lift (subscript "category" (Rule.category rule)) in
  let! severity := lift (subscript "severity" (Rule.severity rule)) in
  io_ret {| Verdict.rule_id := rule_id;
            Verdict.rule_name := name;
            Verdict.category := category;
            Verdict.severity := severity;
            Verdict.status := status;
            Verdict.violations := violations;
            Verdict.threshold := threshold;
            Verdict.impact := get (Rule.impact rule) "N/A";
            Verdict.details := match details with
                               | [] => []
                               | _ => firstn 5 details
                               end |}.

(** The checker object: the rules loaded at construction, the directory
    tree under [data_dir] (for each layer directory that exists, its CSV
    files by stem, already parsed), and the accumulated [results]. *)
Record Checker : Type := mkChecker {
  rules : list Rule.t;
  data_dir : gmap string (list (string * DataFrame));
  results : gmap string (list Verdict.t)
}.

(** [_load_rules]: the [rules] entry of the parsed YAML document, as is. *)
Definition _load_rules (config : option (list Rule.t)) : result (list Rule.t) :=
  subscript "rules" config.

(** [__init__] *)
Definition init (config : option (list Rule.t))
    (dir : gmap string (list (string * DataFrame))) : result Checker :=
  let* loaded := _load_rules config in
  ret {| rules := loaded; data_dir := dir; results := ∅ |}.

Fixpoint load_files (files : list (string * DataFrame))
    (data : gmap string DataFrame) : io (gmap string DataFrame) :=
  match files with
  | [] => io_ret data
  | (table_name, df) :: rest =>
      let data := <[table_name := df]> data in
      print (Loaded table_name (len df)) ;;
      load_files rest data
  end.

Definition _load_data (self : Checker) (layer : string)
  : io (gmap string DataFrame) :=
  match data_dir self !! layer with
  | Some files => load_files files ∅
  | None => io_ret ∅
  end.

Definition count_status (s : Status) (rs : list Verdict.t) : nat :=
  length (filter (fun r => Verdict.status r = s) rs).

Definition _print_summary (rs : list Verdict.t) : io unit :=
  let passed := count_status PASS rs in
  let warnings := count_status WARNING rs in
  let failed := count_status FAIL rs in
  let errors := count_status ERROR rs in
  print (Summary passed warnings failed errors (length rs)) ;;
  (if (0 <? failed)%nat
   then (map FailureDetail (filter (fun r => Verdict.status r = FAIL) rs), inr tt)
   else io_ret tt) ;;
  (if (0 <? warnings)%nat
   then (map WarningDetail (filter (fun r => Verdict.status r = WARNING) rs), inr tt)
   else io_ret tt).

Definition print_status (v : Verdict.t) : io unit :=
  match Verdict.status v with
  | PASS => print PrintPass
  | WARNING => print (PrintWarning (Verdict.violations v))
  | FAIL => print (PrintFail (Verdict.violations v))
  | ERROR => print PrintError
  end.

(** The [for rule in self.rules] loop of [run_checks], [acc] being the
    local list [results] so far. *)
Fixpoint run_rules (layer : string) (data : gmap string DataFrame)
    (todo : list Rule.t) (acc : list Verdict.t) : io (list Verdict.t) :=
  match todo with
  | [] => io_ret acc
  | rule :: rest =>
      if layer_in layer (get (Rule.layer rule) (LayerStr "staging")) then
        let! rule_id := lift (subscript "rule_id" (Rule.rule_id rule)) in
        let! name := lift (subscript "name" (Rule.name rule)) in
        print (RuleStarted rule_id name) ;;
        let! result := check_rule rule data in
        let acc := acc ++ [result] in
        print_status result ;;
        run_rules layer data rest acc
      else run_rules layer data rest acc
  end.

(** [run_checks]: the checker afterwards and the returned value, [None]
    standing for Python's [None] of the early [return]. *)
Definition run_checks (self : Checker) (layer : string)
  : io (Checker * option (list Verdict.t)) :=
  print (Banner layer) ;;
  print (LoadingData layer) ;;
  let! data := _load_data self layer in
  if bool_decide (size data = 0%nat) then
    print (NoDataFound layer) ;;
    io_ret (self, None)
  else
    print (LoadedTables (size data)) ;;
    print ExecutingRules ;;
    let! found := run_rules layer data (rules self) [] in
    let self := {| rules := rules self; data_dir := data_dir self;
                   results := <[layer := found]> (results self) |} in
    _print_summary found ;;
    io_ret (self, Some found).

(** ** Vocabulary of the specification *)

(** The verdict policy in the words of the specification (section 4.4). *)
Definition spec_status (violation_count threshold : Z) (severity : string)
  : Status :=
  if bool_decide (violation_count = -1) then ERROR
  else if bool_decide (violation_count <= threshold) then PASS
  else if bool_decide (severity ∈ ["CRITICAL"; "HIGH"]) then FAIL
  else WARNING.

(** A rule is applicable to a layer when the loop of [run_checks] selects
    it. *)
Definition applicable (layer : string) (rule : Rule.t) : bool :=
  layer_in layer (get (Rule.layer rule) (LayerStr "staging")).

(** A rule record carrying the four mandatory fields of the data model. *)
Definition complete (rule : Rule.t) : Prop :=
  is_Some (Rule.rule_id rule) ∧ is_Some (Rule.name rule) ∧
  is_Some (Rule.category rule) ∧ is_Some (Rule.severity rule).

(** What [_execute_pandas_check] hands to [check_rule]: the findings of the
    [try] block, or the sentinel with its diagnostic. *)
Definition check_result (rule : Rule.t) (data : gmap string DataFrame)
  : Z * list Cell :=
  match try_pandas_check rule data with
  | inr found => found
  | inl e => (-1, [Str ("Error: " +:+ str e)])
  end.

(** The verdict [check_rule] assembles for a complete rule. *)
Definition verdict_of (rule : Rule.t) (data : gmap string DataFrame)
    (rid nm cat sev : string) : Verdict.t :=
  let found := check_result rule data in
  let threshold := get (Rule.threshold rule) 0 in
  {| Verdict.rule_id := rid;
     Verdict.rule_name := nm;
     Verdict.category := cat;
     Verdict.severity := sev;
     Verdict.status := spec_status found.1 threshold sev;
     Verdict.violations := found.1;
     Verdict.threshold := threshold;
     Verdict.impact := get (Rule.impact rule) "N/A";
     Verdict.details := firstn 5 found.2 |}.

Definition verdict (rule : Rule.t) (data : gmap string DataFrame) : Verdict.t :=
  verdict_of rule data
    (get (Rule.rule_id rule) "") (get (Rule.name rule) "")
    (get (Rule.category rule) "") (get (Rule.severity rule) "").

(** The first mandatory key a rule lacks, in the order the engine reads
    them. *)
Definition first_missing (rule : Rule.t) : option string :=
  match Rule.rule_id rule, Rule.name rule, Rule.category rule, Rule.severity rule with
  | None, _, _, _ => Some "rule_id"
  | _, None, _, _ => Some "name"
  | _, _, None, _ => Some "category"
  | _, _, _, None => Some "severity"
  | _, _, _, _ => None
  end.

(** The mapping [_load_data] builds, without its output. *)
Definition tables_of (files : list (string * DataFrame))
    (data : gmap string DataFrame) : gmap string DataFrame :=
  foldl (fun d f => <[f.1 := f.2]> d) data files.

Definition loaded (self : Checker) (layer : string) : gmap string DataFrame :=
  match data_dir self !! layer with
  | Some files => tables_of files ∅
  | None => ∅
  end.

(** What the loop prints for one applicable, complete rule. *)
Definition status_event (v : Verdict.t) : event :=
  match Verdict.status v with
  | PASS => PrintPass
  | WARNING => PrintWarning (Verdict.violations v)
  | FAIL => PrintFail (Verdict.violations v)
  | ERROR => PrintError
  end.

Definition rule_log (rule : Rule.t) (data : gmap string DataFrame) : list event :=
  RuleStarted (get (Rule.rule_id rule) "") (get (Rule.name rule) "")
  :: log (_execute_pandas_check rule data) ++ [status_event (verdict rule data)].

(** The recognised checks, and the dispatch of [_execute_pandas_check] read
    off as a function of the rule alone. *)
Inductive Check : Type :=
| Linkage | BatchYield | DefectDensity | Temperature | Pressure
| WaferIdPresent | EquipmentIdPresent | PassFailPresent
| PairUnique | StepOrder.

Definition resolve (rule : Rule.t) : option Check :=
  match Rule.category rule with
  | None => None
  | Some category =>
      if String.eqb category "REFERENTIAL_INTEGRITY" then
        match Rule.check_sql rule with
        | Some check_sql =>
            if str_in "wafer_tests" check_sql && str_in "wafer_batches" check_sql
            then Some Linkage else None
        | None => None
        end
      else if String.eqb category "RANGE" then
        match Rule.check_sql rule with
        | Some check_sql =>
            if str_in "yield_pct" check_sql then Some BatchYield
            else if str_in "defect_density" check_sql then Some DefectDensity
            else if str_in "temperature" check_sql then Some Temperature
            else if str_in "pressure" check_sql then Some Pressure
            else None
        | None => None
        end
      else if String.eqb category "COMPLETENESS" then
        match Rule.check_sql rule with
        | Some check_sql =>
            if str_in "wafer_id" check_sql then Some WaferIdPresent
            else if str_in "equipment_id" check_sql then Some EquipmentIdPresent
            else if str_in "pass_fail" check_sql then Some PassFailPresent
            else None
        | None => None
        end
      else if String.eqb category "UNIQUENESS" then
        match Rule.check_sql rule with
        | Some check_sql =>
            if str_in "wafer_id" check_sql && str_in "batch_id" check_sql
            then Some PairUnique else None
        | None => None
        end
      else if String.eqb category "TEMPORAL" then
        match Rule.name rule with
        | Some name =>
            if str_in "Process Step Sequence" name then Some StepOrder else None
        | None => None
        end
      else None
  end.

(** The table a check reads behind its membership guard.  The linkage check
    is left out: its guard names other tables than the one it reads. *)
Definition guarded_table (c : Check) : option string :=
  match c with
  | Linkage => None
  | BatchYield | DefectDensity | WaferIdPresent | PassFailPresent
  | PairUnique | StepOrder => Some "test_results"
  | Temperature | Pressure | EquipmentIdPresent => Some "equipment_logs"
  end.

(** A numeric column holds numbers and missing values only. *)
Definition numeric (x : Cell) : Prop :=
  match x with Num _ | NaN => True | _ => False end.

(** The temperature bounds in the words of the specification. *)
Definition out_of_range (x : Cell) : bool :=
  match x with
  | Num q => bool_decide (q < Q2Qc (inject_Z (-50)) \/ Q2Qc (inject_Z 500) < q)%Qc
  | _ => false
  end.

(** The checks that pass their examples through [unique()]. *)
Definition deduplicates (c : Check) : bool :=
  match c with
  | Linkage | Temperature | StepOrder => true
  | _ => false
  end.

(** ** Sample catalogue and tables

    Concrete rules and tables on which the results below are exercised. *)

(** A [to_datetime] that reads every entry as [NaT]; the samples contain no
    temporal rule, so nothing depends on this choice. *)
Definition no_timestamps (s : list Cell) : result (list (option Z)) :=
  ret (map (fun _ => None) s).

Definition both_layers : option LayerSpec := Some (LayerList ["raw"; "staging"]).

Definition temperature_rule : Rule.t :=
  {| Rule.rule_id := Some "DQ_TEMP"; Rule.name := Some "Chamber temperature range";
     Rule.category := Some "RANGE"; Rule.severity := Some "HIGH";
     Rule.check_sql := Some "SELECT equipment_id FROM equipment_logs WHERE temperature_c < -50 OR temperature_c > 500";
     Rule.threshold := None; Rule.impact := None; Rule.layer := both_layers |}.

Definition defect_rule : Rule.t :=
  {| Rule.rule_id := Some "DQ_DEFECT"; Rule.name := Some "Defect density not negative";
     Rule.category := Some "RANGE"; Rule.severity := Some "MEDIUM";
     Rule.check_sql := Some "SELECT wafer_id FROM test_results WHERE defect_density < 0";
     Rule.threshold := Some 20; Rule.impact := None; Rule.layer := both_layers |}.

Definition yield_rule : Rule.t :=
  {| Rule.rule_id := Some "DQ_YIELD"; Rule.name := Some "Batch yield within bounds";
     Rule.category := Some "RANGE"; Rule.severity := Some "CRITICAL";
     Rule.check_sql := Some "SELECT batch_id FROM batch_yield WHERE yield_pct < 0 OR yield_pct > 100";
     Rule.threshold := Some 0; Rule.impact := Some "Yield reports"; Rule.layer := both_layers |}.

Definition pass_fail_rule : Rule.t :=
  {| Rule.rule_id := Some "DQ_PASS_FAIL"; Rule.name := Some "Pass/fail populated";
     Rule.category := Some "COMPLETENESS"; Rule.severity := Some "HIGH";
     Rule.check_sql := Some "SELECT COUNT(*) FROM test_results WHERE pass_fail IS NULL OR pass_fail NOT IN ('PASS', 'FAIL')";
     Rule.threshold := None; Rule.impact := None; Rule.layer := both_layers |}.

Definition linkage_rule : Rule.t :=
  {| Rule.rule_id := Some "DQ_LINK"; Rule.name := Some "Test results reference a batch";
     Rule.category := Some "REFERENTIAL_INTEGRITY"; Rule.severity := Some "CRITICAL";
     Rule.check_sql := Some "SELECT t.batch_id FROM wafer_tests t LEFT JOIN wafer_batches b ON t.batch_id = b.batch_id WHERE b.batch_id IS NULL";
     Rule.threshold := None; Rule.impact := None; Rule.layer := both_layers |}.

(** A record without [severity], and one without [category]. *)
Definition no_severity_rule : Rule.t :=
  {| Rule.rule_id := Some "DQ_BROKEN"; Rule.name := Some "Record without severity";
     Rule.category := Some "RANGE"; Rule.severity := None;
     Rule.check_sql := Some "SELECT wafer_id FROM test_results WHERE defect_density < 0";
     Rule.threshold := None; Rule.impact := None; Rule.layer := both_layers |}.

Definition no_category_rule : Rule.t :=
  {| Rule.rule_id := Some "DQ_NOCAT"; Rule.name := Some "Record without category";
     Rule.category := None; Rule.severity := Some "LOW";
     Rule.check_sql := Some "SELECT 1";
     Rule.threshold := None; Rule.impact := None; Rule.layer := both_layers |}.

Definition decimal (n : Z) (d : positive) : Cell := Num (Q2Qc (n # d)).

(** Readings on and just beyond both temperature bounds. *)
Definition boundary_ids : list Cell :=
  [Str "EQ01"; Str "EQ02"; Str "EQ03"; Str "EQ04"; Str "EQ03"; Str "EQ05"].
Definition boundary_temps : list Cell :=
  [decimal (-50) 1; decimal 500 1; decimal (-50000001) 1000000;
   decimal 500000001 1000000; decimal (-60) 1; NaN].
Definition boundary_logs : DataFrame :=
  {| columns := ["equipment_id"; "temperature_c"];
     rows := zip_with (fun i t => [i; t]) boundary_ids boundary_temps |}.

(** A temperature column polluted with text. *)
Definition text_logs : DataFrame :=
  {| columns := ["equipment_id"; "temperature_c"];
     rows := [[Str "EQ01"; decimal 250 1]; [Str "EQ02"; Str "hot"]] |}.

(** Three rows without [pass_fail], two reading MAYBE, one PASS, one FAIL. *)
Definition pass_fail_column : list Cell :=
  [NaN; Str "PASS"; Str "MAYBE"; NaN; Str "FAIL"; Str "MAYBE"; NaN].
Definition pass_fail_tests : DataFrame :=
  {| columns := ["wafer_id"; "batch_id"; "pass_fail"; "defect_density"];
     rows := imap (fun i v => [Str "B000001_W01"; Str "B000001"; v;
                               decimal (Z.of_nat i) 10]) pass_fail_column |}.

(** A test result whose batch is not among the batches. *)
Definition orphan_tests : DataFrame :=
  {| columns := ["wafer_id"; "batch_id"; "pass_fail"; "defect_density"];
     rows := [[Str "B000001_W01"; Str "B000001"; Str "PASS"; decimal 1 10];
              [Str "B000009_W01"; Str "B000009"; Str "FAIL"; decimal 7 10]] |}.
Definition one_batch : DataFrame :=
  {| columns := ["batch_id"; "lot_number"];
     rows := [[Str "B000001"; Str "LOT0001"]] |}.

(** Twelve process steps of one wafer, each with a negative density. *)
Definition twelve_negative : DataFrame :=
  {| columns := ["wafer_id"; "batch_id"; "pass_fail"; "defect_density"];
     rows := repeat [Str "B000001_W01"; Str "B000001"; Str "FAIL"; decimal (-1) 2]
                    12 |}.

Definition tables (l : list (string * DataFrame)) : gmap string DataFrame :=
  tables_of l ∅.

(** Missing values, and values present but outside PASS and FAIL. *)
Definition is_null (x : Cell) : bool := bool_decide (x = NaN).
Definition bad_value (x : Cell) : bool :=
  negb (is_null x) && negb (bool_decide (x ∈ [Str "PASS"; Str "FAIL"])).

(** A checker over a data directory whose only layer is [raw]. *)
Definition checker_of (catalogue : list Rule.t)
    (files : list (string * DataFrame)) : Checker :=
  {| rules := catalogue; data_dir := <["raw" := files]> ∅; results := ∅ |}.

(** ** Further vocabulary: the remaining checks *)

(** The pressure bounds of the source, [0.001] being the double. *)
Definition pressure_out_of_range (x : Cell) : bool :=
  match x with
  | Num q => bool_decide (q < one_thousandth \/ Q2Qc (inject_Z 1000) < q)%Qc
  | _ => false
  end.

(** A number below zero. *)
Definition negative (x : Cell) : bool :=
  match x with
  | Num q => bool_decide (q < Q2Qc 0)%Qc
  | _ => false
  end.

(** An identifier that is missing or the empty string. *)
Definition blank (x : Cell) : bool :=
  bool_decide (x = NaN) || bool_decide (x = Str "").

(** The table and column of the two identifier-completeness checks. *)
Definition identifier_of (c : Check) : option (string * string) :=
  match c with
  | WaferIdPresent => Some ("test_results", "wafer_id")
  | EquipmentIdPresent => Some ("equipment_logs", "equipment_id")
  | _ => None
  end.

(** The column a guarded check reads first from its table. *)
Definition first_column (c : Check) : option string :=
  match c with
  | Linkage => None
  | BatchYield | PairUnique | StepOrder => Some "batch_id"
  | DefectDensity => Some "defect_density"
  | Temperature => Some "temperature_c"
  | Pressure => Some "pressure_torr"
  | WaferIdPresent => Some "wafer_id"
  | EquipmentIdPresent => Some "equipment_id"
  | PassFailPresent => Some "pass_fail"
  end.

(** The column the three numeric range checks compare with their bounds. *)
Definition compared_column (c : Check) : option string :=
  match c with
  | DefectDensity => Some "defect_density"
  | Temperature => Some "temperature_c"
  | Pressure => Some "pressure_torr"
  | _ => None
  end.

(** The (batch, wafer) pairs of the rows in which neither is missing, and
    how often a pair occurs among them. *)
Definition present_pairs (batch wafer : list Cell) : list (Cell * Cell) :=
  filter (fun p : Cell * Cell => p.1 ≠ NaN ∧ p.2 ≠ NaN) (zip batch wafer).

Definition occurrences (k : Cell * Cell) (pairs : list (Cell * Cell)) : nat :=
  length (filter (fun p => p = k) pairs).

Definition repeated (pairs : list (Cell * Cell)) (k : Cell * Cell) : bool :=
  bool_decide (1 < occurrences k pairs)%nat.

(** A row that is missing or outside PASS and FAIL. *)
Definition not_pass_fail (x : Cell) : bool := is_null x || bad_value x.




(** ** The markdown report and the command line *)

(** What [generate_report] writes, one constructor per [f.write] of the
    source, in the order of the writes.  The time stamp and the path of the
    data directory are text the engine does not compute; they stay inside
    [Generated] and [DataDirectory].  The icon of a heading is determined by
    the status it is looked up with. *)
Inductive written : Type :=
| Title
| Generated
| DataDirectory
| Separator
| LayerHeading (layer : string)
| TableHeader
| TableRule
| PassedRow (n : nat)
| WarningsRow (n : nat)
| FailedRow (n : nat)
| DetailedResults
| RuleHeading (icon : Status) (rule_id rule_name : string)
| CategoryLine (category : string)
| SeverityLine (severity : string)
| StatusLine (status : Status)
| ViolationsLine (violations threshold : Z)
| ImpactLine (impact : string)
| ExamplesLine (details : list Cell)
| BlankLine.

(** The writes for one verdict: the body of [for r in results]. *)
Definition report_rule (r : Verdict.t) : list written :=
  [RuleHeading (Verdict.status r) (Verdict.rule_id r) (Verdict.rule_name r);
   CategoryLine (Verdict.category r);
   SeverityLine (Verdict.severity r);
   StatusLine (Verdict.status r);
   ViolationsLine (Verdict.violations r) (Verdict.threshold r);
   ImpactLine (Verdict.impact r)]
  ++ match Verdict.details r with
     | [] => []
     | details => [ExamplesLine details]
     end
  ++ [BlankLine].

(** The writes for one layer: the body of
    [for layer, results in self.results.items()]. *)
Definition report_layer (layer : string) (found : list Verdict.t) : list written :=
  let passed := length (filter (fun r => Verdict.status r = PASS) found) in
  let warnings := length (filter (fun r => Verdict.status r = WARNING) found) in
  let failed := length (filter (fun r => Verdict.status r = FAIL) found) in
  [LayerHeading layer; TableHeader; TableRule;
   PassedRow passed; WarningsRow warnings; FailedRow failed;
   DetailedResults]
  ++ flat_map report_rule found
  ++ [Separator].

(** [generate_report]: the content written to the report file.  A Python
    dictionary is walked in the order its keys were first stored, which the
    finite map does not record: [order] supplies it.  A layer of [order]
    without stored results contributes nothing. *)
Definition generate_report (self : Checker) (order : list string) : list written :=
  [Title; Generated; DataDirectory; Separator]
  ++ flat_map (fun layer =>
                 match results self !! layer with
                 | Some found => report_layer layer found
                 | None => []
                 end) order.

(** The parsed command line.  [rules_file] is the document found at
    [--rules] as [yaml.safe_load] returns it, [data_root] the tree under
    [--data-dir]. *)
Record Args : Type := mkArgs {
  rules_file : option (list Rule.t);
  data_root : gmap string (list (string * DataFrame));
  layer_arg : string;
  report_flag : bool
}.

(** [main]: build the checker, run the layer, and write the report when
    asked to.  The result is the report written, if any; the checker being
    fresh, its results hold the layer just run or nothing. *)
Definition main (args : Args) : io (option (list written)) :=
  let! checker := lift (init (rules_file args) (data_root args)) in
  let! '(checker, returned) := run_checks checker (layer_arg args) in
  if report_flag args then
    let order := match returned with
                 | Some _ => [layer_arg args]
                 | None => []
                 end in
    io_ret (Some (generate_report checker order))
  else io_ret None.

(** The headings of a report, and the rows of its summary tables. *)
Definition is_heading (w : written) : bool :=
  match w with RuleHeading _ _ _ => true | _ => false end.

Definition heading_of (r : Verdict.t) : written :=
  RuleHeading (Verdict.status r) (Verdict.rule_id r) (Verdict.rule_name r).

Definition is_examples (w : written) : bool :=
  match w with ExamplesLine _ => true | _ => false end.

(** The columns a guarded check reads from its table. *)
Definition columns_read (c : Check) : list string :=
  match c with
  | Linkage => []
  | BatchYield => ["batch_id"; "pass_fail"]
  | DefectDensity => ["defect_density"; "wafer_id"]
  | Temperature => ["temperature_c"; "equipment_id"]
  | Pressure => ["pressure_torr"]
  | WaferIdPresent => ["wafer_id"]
  | EquipmentIdPresent => ["equipment_id"]
  | PassFailPresent => ["pass_fail"]
  | PairUnique => ["batch_id"; "wafer_id"]
  | StepOrder => ["batch_id"; "process_step_id"; "start_time"]
  end.

(** ** Further samples *)

Definition humidity_rule : Rule.t :=
  {| Rule.rule_id := Some "DQ_HUMID"; Rule.name := Some "Cleanroom humidity range";
     Rule.category := Some "RANGE"; Rule.severity := Some "LOW";
     Rule.check_sql := Some "SELECT equipment_id FROM equipment_logs WHERE humidity_pct > 60";
     Rule.threshold := None; Rule.impact := None; Rule.layer := both_layers |}.

Definition pressure_rule : Rule.t :=
  {| Rule.rule_id := Some "DQ_PRESS"; Rule.name := Some "Chamber pressure range";
     Rule.category := Some "RANGE"; Rule.severity := Some "MEDIUM";
     Rule.check_sql := Some "SELECT equipment_id FROM equipment_logs WHERE pressure_torr < 0.001 OR pressure_torr > 1000";
     Rule.threshold := None; Rule.impact := None; Rule.layer := both_layers |}.

Definition wafer_id_rule : Rule.t :=
  {| Rule.rule_id := Some "DQ_WAFER"; Rule.name := Some "Wafer id populated";
     Rule.category := Some "COMPLETENESS"; Rule.severity := Some "CRITICAL";
     Rule.check_sql := Some "SELECT COUNT(*) FROM test_results WHERE wafer_id IS NULL";
     Rule.threshold := None; Rule.impact := None; Rule.layer := both_layers |}.

Definition pair_rule : Rule.t :=
  {| Rule.rule_id := Some "DQ_PAIR"; Rule.name := Some "One row per wafer and batch";
     Rule.category := Some "UNIQUENESS"; Rule.severity := Some "HIGH";
     Rule.check_sql := Some "SELECT batch_id, wafer_id FROM test_results GROUP BY batch_id, wafer_id HAVING COUNT(*) > 1";
     Rule.threshold := None; Rule.impact := None; Rule.layer := both_layers |}.

Definition step_order_rule : Rule.t :=
  {| Rule.rule_id := Some "DQ_STEPS"; Rule.name := Some "Process Step Sequence";
     Rule.category := Some "TEMPORAL"; Rule.severity := Some "HIGH";
     Rule.check_sql := Some "SELECT batch_id FROM test_results";
     Rule.threshold := None; Rule.impact := None; Rule.layer := both_layers |}.

(** The humidity rule with a threshold below zero. *)
Definition strict_rule : Rule.t :=
  {| Rule.rule_id := Some "DQ_STRICT"; Rule.name := Some "Cleanroom humidity range";
     Rule.category := Some "RANGE"; Rule.severity := Some "LOW";
     Rule.check_sql := Some "SELECT equipment_id FROM equipment_logs WHERE humidity_pct > 60";
     Rule.threshold := Some (-1); Rule.impact := None; Rule.layer := both_layers |}.

(** Pressures on and beyond the bounds, and a missing one; the lower bound
    is the double [0.001] itself. *)
Definition pressure_column : list Cell :=
  [Num one_thousandth; decimal 1000 1; decimal 1 1024; decimal 1001 1; NaN].
Definition pressure_logs : DataFrame :=
  {| columns := ["equipment_id"; "pressure_torr"];
     rows := map (fun p => [Str "ETC001"; p]) pressure_column |}.

(** Wafer ids, one missing and one empty. *)
Definition wafer_column : list Cell :=
  [Str "B000001_W01"; NaN; Str ""; Str "B000001_W02"].
Definition blank_id_tests : DataFrame :=
  {| columns := ["wafer_id"; "batch_id"];
     rows := map (fun w => [w; Str "B000001"]) wafer_column |}.

(** A header without rows. *)
Definition empty_tests : DataFrame :=
  {| columns := ["wafer_id"; "batch_id"; "process_step_id"; "start_time";
                 "pass_fail"; "defect_density"];
     rows := [] |}.

Definition sample_args (catalogue : list Rule.t)
    (files : list (string * DataFrame)) (layer : string) : Args :=
  {| rules_file := Some catalogue; data_root := <["raw" := files]> ∅;
     layer_arg := layer; report_flag := true |}.

(** ** Proof tactics *)

(** Case analysis along the dispatch recorded in [H : resolve rule = _]. *)
Ltac split_dispatch H :=
  repeat match type of H with
         | context [match ?x with _ => _ end] =>
             destruct x eqn:?; simpl in H |- *; try discriminate H
         end.

(** One step through the [try] block under the assumption [H] that it
    returned: the next operation returned too, or the next test went one
    way or the other. *)
Ltac step H :=
  match type of H with
  | Py.bind ?m _ = inr _ =>
      let E := fresh "E" in
      destruct m eqn:E; cbn [Py.bind] in H; [discriminate H|]
  | (if ?b then _ else _) = inr _ => destruct b eqn:?
  | (let _ := _ in _) = inr _ => cbv zeta in H
  end.

Ltac leaf H :=
  unfold no_violation, ret in H; injection H as <- <-.

(** ** Properties *)

Lemma decide_status_spec rule violations threshold severity :
  Rule.severity rule = Some severity ->
  decide_status rule violations threshold
  = ret (spec_status violations threshold severity).
Proof.
  intros Hsev. unfold decide_status, spec_status. rewrite Hsev. simpl.
  destruct (Z.eqb_spec violations (-1)) as [->|Hne].
  - reflexivity.
  - rewrite (bool_decide_eq_false_2 _ Hne).
    destruct (Z.leb_spec violations threshold) as [Hle|Hgt].
    + rewrite (bool_decide_eq_true_2 _ Hle). reflexivity.
    + rewrite bool_decide_eq_false_2 by lia.
      destruct (String.eqb_spec severity "CRITICAL") as [->|Hc]; [reflexivity|].
      destruct (String.eqb_spec severity "HIGH") as [->|Hh]; [reflexivity|].
      rewrite bool_decide_eq_false_2.
      * destruct (String.eqb severity "MEDIUM"); reflexivity.
      * rewrite !elem_of_cons, elem_of_nil. tauto.
Qed.

Lemma execute_returns rule data rid :
  Rule.rule_id rule = Some rid ->
  outcome (_execute_pandas_check rule data) = inr (check_result rule data).
Proof.
  intros Hid. unfold _execute_pandas_check, check_result.
  destruct (try_pandas_check rule data) as [e|found]; [|reflexivity].
  rewrite Hid. reflexivity.
Qed.

Lemma execute_inv rule data out found :
  _execute_pandas_check rule data = (out, inr found) ->
  found = check_result rule data.
Proof.
  unfold _execute_pandas_check, check_result.
  destruct (try_pandas_check rule data) as [e|r].
  - destruct (Rule.rule_id rule); simpl; [|discriminate].
    intros H. injection H as _ <-. reflexivity.
  - intros H. injection H as _ <-. reflexivity.
Qed.

Lemma first_five (details : list Cell) :
  match details with [] => [] | _ => firstn 5 details end = firstn 5 details.
Proof. destruct details; reflexivity. Qed.

Lemma check_rule_inv rule data out v :
  check_rule rule data = (out, inr v) ->
  exists rid nm cat sev,
    Rule.rule_id rule = Some rid /\ Rule.name rule = Some nm /\
    Rule.category rule = Some cat /\ Rule.severity rule = Some sev /\
    v = verdict_of rule data rid nm cat sev.
Proof.
  unfold check_rule, verdict_of.
  destruct (_execute_pandas_check rule data) as [o [e|[violations details]]] eqn:Hx;
    simpl; [discriminate|].
  apply execute_inv in Hx. rewrite <- Hx. simpl.
  destruct (Rule.severity rule) as [sev|] eqn:Hsev.
  - rewrite (decide_status_spec _ _ _ _ Hsev). simpl.
    destruct (Rule.rule_id rule) as [rid|]; simpl; [|discriminate].
    destruct (Rule.name rule) as [nm|]; simpl; [|discriminate].
    destruct (Rule.category rule) as [cat|]; simpl; [|discriminate].
    intros H. injection H as _ <-. rewrite first_five.
    exists rid, nm, cat, sev. repeat split; reflexivity.
  - destruct (decide_status rule violations _) as [e|st]; simpl; [discriminate|].
    destruct (Rule.rule_id rule); simpl; [|discriminate].
    destruct (Rule.name rule); simpl; [|discriminate].
    destruct (Rule.category rule); simpl; discriminate.
Qed.

Lemma check_rule_complete rule data rid nm cat sev :
  Rule.rule_id rule = Some rid -> Rule.name rule = Some nm ->
  Rule.category rule = Some cat -> Rule.severity rule = Some sev ->
  check_rule rule data
  = (log (_execute_pandas_check rule data), inr (verdict_of rule data rid nm cat sev)).
Proof.
  intros Hid Hnm Hcat Hsev. unfold check_rule, verdict_of.
  pose proof (execute_returns rule data rid Hid) as Hx.
  destruct (_execute_pandas_check rule data) as [o r]. simpl in Hx. subst r.
  destruct (check_result rule data) as [violations details]. simpl.
  rewrite (decide_status_spec _ _ _ _ Hsev), Hid, Hnm, Hcat, Hsev. simpl.
  rewrite first_five, !app_nil_r. reflexivity.
Qed.

(** C1.  Whenever [check_rule] produces a verdict, its status is the
    policy of the specification applied to the verdict's own violation
    count, threshold and severity: [ERROR] for the sentinel [-1], else
    [PASS] up to the threshold, else [FAIL] for CRITICAL and HIGH, else
    [WARNING]; and the sentinel gives [ERROR] for every threshold and
    severity. *)
Theorem C1_status_policy rule data out v :
  check_rule rule data = (out, inr v) ->
  Verdict.status v
  = spec_status (Verdict.violations v) (Verdict.threshold v) (Verdict.severity v)
  /\ (forall threshold severity, spec_status (-1) threshold severity = ERROR)
  /\ (Verdict.violations v = -1 -> Verdict.status v = ERROR).
Proof.
  intros H. apply check_rule_inv in H as (rid & nm & cat & sev & _ & _ & _ & _ & ->).
  simpl. split; [reflexivity|]. split; [reflexivity|].
  intros ->. reflexivity.
Qed.

(** *** The loader and the rule loop *)

Lemma load_files_spec files data :
  outcome (load_files files data) = inr (tables_of files data).
Proof.
  revert data. induction files as [|[table_name df] rest IH]; intros data.
  - reflexivity.
  - simpl. specialize (IH (<[table_name := df]> data)).
    destruct (load_files rest _) as [o r]. simpl in *. exact IH.
Qed.

Lemma load_data_spec self layer :
  _load_data self layer = (log (_load_data self layer), inr (loaded self layer)).
Proof.
  unfold _load_data, loaded. destruct (data_dir self !! layer) as [files|].
  - pose proof (load_files_spec files ∅) as H.
    destruct (load_files files ∅) as [o r]. simpl in *. now subst r.
  - reflexivity.
Qed.

Lemma print_status_spec v : print_status v = ([status_event v], inr tt).
Proof. unfold print_status, status_event. destruct (Verdict.status v); reflexivity. Qed.

Lemma complete_verdict rule data :
  complete rule ->
  check_rule rule data = (log (_execute_pandas_check rule data), inr (verdict rule data)).
Proof.
  intros ([rid Hid] & [nm Hnm] & [cat Hcat] & [sev Hsev]).
  rewrite (check_rule_complete _ _ _ _ _ _ Hid Hnm Hcat Hsev).
  unfold verdict. rewrite Hid, Hnm, Hcat, Hsev. reflexivity.
Qed.

Lemma run_rules_skip layer data rule rest acc :
  applicable layer rule = false ->
  run_rules layer data (rule :: rest) acc = run_rules layer data rest acc.
Proof. unfold applicable. intros H. simpl. rewrite H. reflexivity. Qed.

Lemma run_rules_step layer data rule rest acc :
  applicable layer rule = true -> complete rule ->
  run_rules layer data (rule :: rest) acc
  = (rule_log rule data ++ log (run_rules layer data rest (acc ++ [verdict rule data])),
     outcome (run_rules layer data rest (acc ++ [verdict rule data]))).
Proof.
  unfold applicable, rule_log. intros Happ Hc. simpl. rewrite Happ.
  rewrite (complete_verdict _ data Hc).
  destruct Hc as ([rid Hid] & [nm Hnm] & _). rewrite Hid, Hnm. simpl.
  rewrite print_status_spec. simpl.
  destruct (run_rules layer data rest _) as [o r]. simpl.
  rewrite <- app_assoc. reflexivity.
Qed.

(** On complete rules the loop evaluates every applicable rule, in
    catalogue order. *)
Lemma run_rules_complete layer data todo acc :
  Forall complete (filter (applicable layer) todo) ->
  outcome (run_rules layer data todo acc)
  = inr (acc ++ map (fun r => verdict r data) (filter (applicable layer) todo)).
Proof.
  revert acc. induction todo as [|rule rest IH]; intros acc Hall.
  - simpl. now rewrite app_nil_r.
  - destruct (applicable layer rule) eqn:Happ.
    + rewrite filter_cons_True in Hall |- * by (now rewrite Happ).
      apply Forall_cons in Hall as [Hc Hall].
      rewrite (run_rules_step layer data rule rest acc Happ Hc).
      simpl. rewrite (IH _ Hall), <- app_assoc. reflexivity.
    + rewrite filter_cons_False in Hall |- * by (now rewrite Happ).
      rewrite run_rules_skip by exact Happ. now apply IH.
Qed.

Lemma tables_of_empty files data :
  tables_of files data = ∅ -> files = [] /\ data = ∅.
Proof.
  revert data. induction files as [|f rest IH]; intros data H.
  - split; [reflexivity|exact H].
  - apply IH in H as [_ H]. now apply insert_non_empty in H.
Qed.

Lemma loaded_empty_quiet self layer :
  loaded self layer = ∅ -> log (_load_data self layer) = [].
Proof.
  unfold loaded, _load_data. destruct (data_dir self !! layer) as [files|].
  - intros H. apply tables_of_empty in H as [-> _]. reflexivity.
  - reflexivity.
Qed.

Lemma print_summary_returns found : outcome (_print_summary found) = inr tt.
Proof.
  unfold _print_summary. simpl.
  destruct (0 <? count_status FAIL found)%nat, (0 <? count_status WARNING found)%nat;
    reflexivity.
Qed.

(** [run_checks] in terms of the loaded mapping and the rule loop. *)
Lemma run_checks_unfold self layer :
  run_checks self layer
  = let data := loaded self layer in
    let head := [Banner layer; LoadingData layer] ++ log (_load_data self layer) in
    if bool_decide (size data = 0%nat)
    then (head ++ [NoDataFound layer], inr (self, None))
    else
      let body := head ++ [LoadedTables (size data); ExecutingRules]
                  ++ log (run_rules layer data (rules self) []) in
      match outcome (run_rules layer data (rules self) []) with
      | inl e => (body, inl e)
      | inr found =>
          (body ++ log (_print_summary found),
           inr ({| rules := rules self; data_dir := data_dir self;
                   results := <[layer := found]> (results self) |}, Some found))
      end.
Proof.
  unfold run_checks. rewrite load_data_spec. cbn zeta. simpl.
  destruct (bool_decide (size (loaded self layer) = 0%nat)).
  - reflexivity.
  - simpl. destruct (run_rules layer (loaded self layer) (rules self) []) as [o [e|found]].
    + simpl. reflexivity.
    + simpl. pose proof (print_summary_returns found) as Hs.
      destruct (_print_summary found) as [os rs]. simpl in *. subst rs.
      simpl. rewrite app_nil_r, <- app_assoc. reflexivity.
Qed.

Lemma size_zero_empty (data : gmap string DataFrame) :
  size data = 0%nat <-> data = ∅.
Proof. apply map_size_empty_iff. Qed.

(** C7.  When the mapping loaded for the requested layer is empty (in
    particular when the layer directory does not exist), [run_checks]
    prints the no-data message and returns [None] with the checker
    unchanged: the whole output is the banner, the loading line and that
    message, so no rule was started.  Any run that evaluates rules returns a
    list instead, even an all-PASS or an empty one, and [None] is returned
    only for an empty mapping. *)
Theorem C7_empty_layer_signal self layer :
  loaded self layer = ∅ ->
  run_checks self layer
  = ([Banner layer; LoadingData layer; NoDataFound layer], inr (self, None))
  /\ (forall rid nm, RuleStarted rid nm ∉ log (run_checks self layer))
  /\ (forall s l, data_dir s !! l = None -> loaded s l = ∅)
  /\ (forall s l out st returned,
        run_checks s l = (out, inr (st, returned)) ->
        (returned = None <-> loaded s l = ∅)
        /\ (forall verdicts, returned = Some verdicts -> results st !! l = Some verdicts)).
Proof.
  intros Hempty.
  assert (Hrun : run_checks self layer
                 = ([Banner layer; LoadingData layer; NoDataFound layer],
                    inr (self, None))).
  { rewrite run_checks_unfold. cbn zeta.
    rewrite bool_decide_eq_true_2 by (now apply size_zero_empty).
    rewrite (loaded_empty_quiet _ _ Hempty). reflexivity. }
  split; [exact Hrun|]. split; [|split].
  - intros rid nm. rewrite Hrun. simpl.
    rewrite !elem_of_cons, elem_of_nil. intros [H|[H|[H|[]]]]; discriminate.
  - intros s l H. unfold loaded. now rewrite H.
  - intros s l out st returned. rewrite run_checks_unfold. cbn zeta.
    destruct (decide (size (loaded s l) = 0%nat)) as [Hz|Hnz].
    + rewrite (bool_decide_eq_true_2 _ Hz). intros H. injection H as _ <- <-.
      split; [|discriminate]. split; [intros _; now apply size_zero_empty|reflexivity].
    + rewrite (bool_decide_eq_false_2 _ Hnz).
      destruct (outcome (run_rules l (loaded s l) (rules s) [])) as [e|found];
        [discriminate|].
      intros H. injection H as _ <- <-. split.
      * split; [discriminate|]. intros He. now apply size_zero_empty in He.
      * intros verdicts Hv. injection Hv as <-. simpl. apply lookup_insert_eq.
Qed.

(** C4.  With data loaded and every applicable rule carrying its mandatory
    fields, [run_checks] returns one verdict per applicable rule, in order,
    and raises nothing; the verdict of a rule whose check raised [e] has
    violation count [-1], the single example ["Error: " + str(e)] and
    status [ERROR]. *)
Theorem C4_failure_isolated self layer :
  Forall complete (filter (applicable layer) (rules self)) ->
  loaded self layer <> ∅ ->
  exists out self' verdicts,
    run_checks self layer = (out, inr (self', Some verdicts))
    /\ results self' !! layer = Some verdicts
    /\ length verdicts = length (filter (applicable layer) (rules self))
    /\ Forall2 (fun rule v =>
          (exists o, check_rule rule (loaded self layer) = (o, inr v))
          /\ forall e, try_pandas_check rule (loaded self layer) = inl e ->
               Verdict.violations v = -1
               /\ Verdict.details v = [Str ("Error: " +:+ str e)]
               /\ Verdict.status v = ERROR)
        (filter (applicable layer) (rules self)) verdicts.
Proof.
  intros Hall Hdata.
  rewrite run_checks_unfold. cbn zeta.
  rewrite bool_decide_eq_false_2 by (now rewrite size_zero_empty).
  rewrite (run_rules_complete _ _ _ [] Hall). simpl.
  eexists _, _, _. split; [reflexivity|]. split; [apply lookup_insert_eq|].
  split; [now rewrite length_map|].
  apply Forall2_fmap_r, Forall_Forall2_diag.
  eapply Forall_impl; [exact Hall|]. intros rule Hc. split.
  - eexists. apply (complete_verdict _ _ Hc).
  - intros e He. unfold verdict, verdict_of, check_result. rewrite He. simpl.
    repeat split; reflexivity.
Qed.

(** *** Incomplete rule records *)

Lemma check_rule_incomplete rule data rid nm key :
  Rule.rule_id rule = Some rid -> Rule.name rule = Some nm ->
  first_missing rule = Some key ->
  outcome (check_rule rule data) = inl (KeyError key).
Proof.
  intros Hid Hnm. unfold first_missing. rewrite Hid, Hnm.
  unfold check_rule.
  pose proof (execute_returns rule data rid Hid) as Hx.
  destruct (_execute_pandas_check rule data) as [o r]. simpl in Hx. subst r.
  destruct (Rule.category rule) as [cat|] eqn:Hcat.
  - destruct (Rule.severity rule) as [sev|] eqn:Hsev; [discriminate|].
    intros H. injection H as <-.
    destruct (check_result rule data) as [violations details]. simpl.
    unfold decide_status. rewrite Hsev.
    destruct (violations =? -1); simpl.
    + rewrite Hid, Hnm. reflexivity.
    + destruct (violations <=? _); simpl; [|reflexivity].
      rewrite Hid, Hnm. reflexivity.
  - intros H. injection H as <-.
    unfold check_result, try_pandas_check. rewrite Hcat. simpl.
    rewrite Hid, Hnm. reflexivity.
Qed.

Lemma incomplete_rule_raises layer data bad rest acc key :
  applicable layer bad = true -> first_missing bad = Some key ->
  outcome (run_rules layer data (bad :: rest) acc) = inl (KeyError key).
Proof.
  unfold applicable. intros Happ Hkey. simpl. rewrite Happ.
  destruct (Rule.rule_id bad) as [rid|] eqn:Hid.
  - destruct (Rule.name bad) as [nm|] eqn:Hnm.
    + pose proof (check_rule_incomplete bad data rid nm key Hid Hnm Hkey) as Hc.
      simpl. destruct (check_rule bad data) as [o r]. simpl in Hc. subst r.
      reflexivity.
    + unfold first_missing in Hkey. rewrite Hid, Hnm in Hkey.
      injection Hkey as <-. reflexivity.
  - unfold first_missing in Hkey. rewrite Hid in Hkey.
    injection Hkey as <-. reflexivity.
Qed.

(** The loop over a complete prefix runs to its end before the rule after
    it is touched: the output of the whole loop starts with the output of
    the prefix. *)
Lemma run_rules_prefix layer data pre rest acc :
  Forall complete (filter (applicable layer) pre) ->
  exists found,
    outcome (run_rules layer data pre acc) = inr found
    /\ run_rules layer data (pre ++ rest) acc
       = (log (run_rules layer data pre acc) ++ log (run_rules layer data rest found),
          outcome (run_rules layer data rest found)).
Proof.
  revert acc. induction pre as [|rule pre IH]; intros acc Hall.
  - exists acc. split; [reflexivity|]. simpl.
    now destruct (run_rules layer data rest acc).
  - destruct (applicable layer rule) eqn:Happ.
    + rewrite filter_cons_True in Hall by (now rewrite Happ).
      apply Forall_cons in Hall as [Hc Hall].
      destruct (IH (acc ++ [verdict rule data]) Hall) as (found & Hf & Heq).
      exists found.
      change ((rule :: pre) ++ rest) with (rule :: (pre ++ rest)).
      rewrite !(run_rules_step layer data rule _ acc Happ Hc), Heq. simpl.
      split; [exact Hf|]. now rewrite app_assoc.
    + rewrite filter_cons_False in Hall by (now rewrite Happ).
      change ((rule :: pre) ++ rest) with (rule :: (pre ++ rest)).
      rewrite !run_rules_skip by exact Happ. now apply IH.
Qed.

Lemma run_rules_log layer data todo acc :
  Forall complete (filter (applicable layer) todo) ->
  log (run_rules layer data todo acc)
  = flat_map (fun r => rule_log r data) (filter (applicable layer) todo).
Proof.
  revert acc. induction todo as [|rule rest IH]; intros acc Hall.
  - reflexivity.
  - destruct (applicable layer rule) eqn:Happ.
    + rewrite filter_cons_True in Hall |- * by (now rewrite Happ).
      apply Forall_cons in Hall as [Hc Hall].
      rewrite (run_rules_step layer data rule rest acc Happ Hc).
      simpl. now rewrite (IH _ Hall).
    + rewrite filter_cons_False in Hall |- * by (now rewrite Happ).
      rewrite run_rules_skip by exact Happ. now apply IH.
Qed.

(** C3 (as the code has it).  Loading accepts any rule records: nothing is
    validated and the engine has no configuration error.  With data
    loaded, the run evaluates and prints every applicable rule in front of
    the first applicable record that lacks a mandatory key, and only then
    raises [KeyError] for the first key that record lacks (in the order
    rule_id, name, category, severity); the exception leaves [run_checks]. *)
Theorem C3_missing_field_raises_late self layer pre bad post key :
  rules self = pre ++ bad :: post ->
  Forall complete (filter (applicable layer) pre) ->
  applicable layer bad = true ->
  first_missing bad = Some key ->
  loaded self layer <> ∅ ->
  let data := loaded self layer in
  init (Some (rules self)) (data_dir self)
  = ret {| rules := rules self; data_dir := data_dir self; results := ∅ |}
  /\ outcome (run_rules layer data pre [])
     = inr (map (fun r => verdict r data) (filter (applicable layer) pre))
  /\ exists tail,
       run_checks self layer
       = ([Banner layer; LoadingData layer] ++ log (_load_data self layer)
          ++ [LoadedTables (size data); ExecutingRules]
          ++ flat_map (fun r => rule_log r data) (filter (applicable layer) pre)
          ++ tail,
          inl (KeyError key)).
Proof.
  intros Hrules Hall Happ Hkey Hdata data. split; [reflexivity|].
  split; [apply (run_rules_complete _ _ _ [] Hall)|].
  rewrite run_checks_unfold. cbn zeta. fold data.
  rewrite bool_decide_eq_false_2 by (now rewrite size_zero_empty).
  rewrite Hrules.
  destruct (run_rules_prefix layer data pre (bad :: post) [] Hall) as (found & Hf & ->).
  pose proof (incomplete_rule_raises layer data bad post found key Happ Hkey) as Hbad.
  rewrite (run_rules_log _ _ _ [] Hall).
  destruct (run_rules layer data (bad :: post) found) as [tail r].
  simpl in Hbad. subst r. exists tail. reflexivity.
Qed.

(** *** The checks *)

Lemma absent_table t (data : gmap string DataFrame) :
  data !! t = None -> has_table t data = false.
Proof. intros H. unfold has_table. rewrite H. reflexivity. Qed.

(** C2 (as the code has it).  A recognised check other than the linkage
    check whose table is absent from the mapping is skipped by its guard:
    it returns count 0 and no examples, exactly the no-op outcome, raises
    nothing and prints nothing; for a complete rule with a non-negative
    threshold the verdict is [PASS]. *)
Theorem C2_absent_table_is_no_op rule data c t :
  resolve rule = Some c ->
  guarded_table c = Some t ->
  data !! t = None ->
  complete rule ->
  0 <= get (Rule.threshold rule) 0 ->
  _execute_pandas_check rule data = ([], inr (0, []))
  /\ exists v,
       check_rule rule data = ([], inr v)
       /\ Verdict.violations v = 0
       /\ Verdict.details v = []
       /\ Verdict.status v = PASS.
Proof.
  intros Hres Hguard Habs Hc Hthr.
  assert (Htry : try_pandas_check rule data = inr (0, [])).
  { unfold resolve in Hres. unfold try_pandas_check.
    split_dispatch Hres; injection Hres as <-; simpl in Hguard;
      try discriminate Hguard; injection Hguard as <-;
      rewrite (absent_table _ _ Habs); reflexivity. }
  assert (Hx : _execute_pandas_check rule data = ([], inr (0, []))).
  { unfold _execute_pandas_check. now rewrite Htry. }
  split; [exact Hx|].
  exists (verdict rule data). rewrite (complete_verdict _ _ Hc), Hx.
  split; [reflexivity|].
  unfold verdict, verdict_of, check_result. rewrite Htry. simpl.
  repeat split. unfold spec_status. simpl.
  now rewrite bool_decide_eq_true_2.
Qed.

Lemma present_table t (data : gmap string DataFrame) df :
  data !! t = Some df -> has_table t data = true /\ table data t = inr df.
Proof. intros H. unfold has_table, table. rewrite H. split; reflexivity. Qed.

Lemma keep_map {A B} (f : A -> B) xs mask :
  keep (map f xs) mask = map f (keep xs mask).
Proof.
  revert mask. induction xs as [|x xs IH]; intros [|[] mask]; simpl;
    rewrite ?IH; reflexivity.
Qed.

Lemma keep_none {A} (xs : list A) mask :
  Forall (fun b => b = false) mask -> keep xs mask = [].
Proof.
  revert mask. induction xs as [|x xs IH]; intros [|b mask] H; simpl; try reflexivity.
  apply Forall_cons in H as [-> H]. now apply IH.
Qed.

Lemma keep_count {A B} (p : B -> bool) (xs : list A) (ys : list B) :
  length xs = length ys ->
  length (keep xs (map p ys)) = length (filter p ys).
Proof.
  revert ys. induction xs as [|x xs IH]; intros [|y ys] Hlen; simpl in *;
    try reflexivity; try discriminate.
  injection Hlen as Hlen. destruct (p y) eqn:Hp.
  - rewrite filter_cons_True by (now rewrite Hp). simpl. now rewrite IH.
  - rewrite filter_cons_False by (now rewrite Hp). now apply IH.
Qed.

Lemma getitem_length df c s :
  getitem df c = inr s -> length s = length (rows df).
Proof.
  unfold getitem. destruct (index_of c (columns df)); [|discriminate].
  intros H. injection H as <-. apply length_map.
Qed.

Lemma getitem_select df c s mask :
  getitem df c = inr s -> getitem (select df mask) c = inr (keep s mask).
Proof.
  unfold getitem, select. simpl.
  destruct (index_of c (columns df)); [|discriminate].
  intros H. injection H as <-. now rewrite keep_map.
Qed.

Lemma compare_numeric op test s :
  Forall numeric s ->
  compare_scalar op test s
  = inr (map (fun x => match x with Num q => test q | _ => false end) s).
Proof.
  unfold compare_scalar. induction 1 as [|x s Hx _ IH]; [reflexivity|].
  simpl. rewrite IH. destruct x; simpl in *; (reflexivity || contradiction).
Qed.

Lemma mask_or_map {A} (f g : A -> bool) l :
  mask_or (map f l) (map g l) = map (fun x => f x || g x) l.
Proof. unfold mask_or. induction l; simpl; congruence. Qed.

(** [unique] keeps exactly the values of the column, each once. *)
Lemma unique_from_elem {A} `{EqDecision A} (seen s : list A) x :
  x ∈ unique_from seen s <-> x ∈ s /\ x ∉ seen.
Proof.
  revert seen. induction s as [|y s IH]; intros seen; simpl.
  - rewrite elem_of_nil. tauto.
  - destruct (decide (y ∈ seen)) as [Hin|Hout].
    + rewrite (bool_decide_eq_true_2 _ Hin), IH, elem_of_cons.
      split; [tauto|]. intros [[->|?] ?]; tauto.
    + rewrite (bool_decide_eq_false_2 _ Hout), !elem_of_cons, IH, elem_of_cons.
      destruct (decide (x = y)) as [->|Hne]; tauto.
Qed.

Lemma unique_from_NoDup {A} `{EqDecision A} (seen s : list A) :
  NoDup (unique_from seen s).
Proof.
  revert seen. induction s as [|y s IH]; intros seen; simpl.
  - constructor.
  - destruct (bool_decide (y ∈ seen)); [apply IH|].
    constructor; [|apply IH].
    rewrite unique_from_elem, elem_of_cons. tauto.
Qed.

Lemma unique_elem {A} `{EqDecision A} (s : list A) x : x ∈ unique s <-> x ∈ s.
Proof. unfold unique. rewrite unique_from_elem, elem_of_nil. tauto. Qed.

Lemma unique_NoDup {A} `{EqDecision A} (s : list A) : NoDup (unique s).
Proof. apply unique_from_NoDup. Qed.

Lemma firstn_NoDup {A} n (l : list A) : NoDup l -> NoDup (firstn n l).
Proof.
  intros H. rewrite <- (firstn_skipn n l) in H.
  now apply NoDup_app in H as [H _].
Qed.

Lemma firstn_elem {A} n (l : list A) x : x ∈ firstn n l -> x ∈ l.
Proof.
  intros H. rewrite <- (firstn_skipn n l). apply elem_of_app. now left.
Qed.

Lemma out_of_range_split x :
  out_of_range x
  = (match x with
     | Num q => bool_decide (q < Q2Qc (inject_Z (-50)))%Qc
     | _ => false
     end)
    || (match x with
        | Num q => bool_decide (Q2Qc (inject_Z 500) < q)%Qc
        | _ => false
        end).
Proof.
  destruct x as [| |q|]; try reflexivity. simpl.
  destruct (decide (q < Q2Qc (inject_Z (-50)))%Qc) as [Hl|Hl],
           (decide (Q2Qc (inject_Z 500) < q)%Qc) as [Hh|Hh].
  all: rewrite ?(bool_decide_eq_true_2 _ Hl), ?(bool_decide_eq_false_2 _ Hl),
         ?(bool_decide_eq_true_2 _ Hh), ?(bool_decide_eq_false_2 _ Hh); simpl.
  all: try (apply bool_decide_eq_true_2; tauto).
  apply bool_decide_eq_false_2; tauto.
Qed.

(** C6.  On an [equipment_logs] table with a numeric [temperature_c] column
    the temperature check counts exactly the rows whose temperature is
    below -50 or above 500, both bounds strict: -50 and 500 themselves pass,
    -50.000001 and 500.000001 do not.  The examples are the equipment ids
    of the offending rows, each once, in order of first appearance, cut
    after ten. *)
Theorem C6_temperature_bounds rule data logs temps ids :
  resolve rule = Some Temperature ->
  data !! "equipment_logs" = Some logs ->
  getitem logs "temperature_c" = inr temps ->
  Forall numeric temps ->
  getitem logs "equipment_id" = inr ids ->
  let offending := keep ids (map out_of_range temps) in
  let examples := firstn 10 (unique offending) in
  try_pandas_check rule data
  = inr (Z.of_nat (length (filter out_of_range temps)), examples)
  /\ NoDup examples
  /\ (length examples <= 10)%nat
  /\ (forall x, x ∈ examples -> x ∈ offending)
  /\ (forall q, out_of_range (Num q) = true
                <-> (q < Q2Qc (inject_Z (-50)) \/ Q2Qc (inject_Z 500) < q)%Qc)
  /\ out_of_range (Num (Q2Qc (inject_Z (-50)))) = false
  /\ out_of_range (Num (Q2Qc (inject_Z 500))) = false
  /\ out_of_range (Num (Q2Qc (-50000001 # 1000000))) = true
  /\ out_of_range (Num (Q2Qc (500000001 # 1000000))) = true.
Proof.
  intros Hres Hlogs Htemps Hnum Hids offending examples.
  split; [|split; [|split; [|split; [|split]]]].
  - unfold resolve in Hres. unfold try_pandas_check.
    split_dispatch Hres. clear Hres.
    destruct (present_table _ _ _ Hlogs) as [-> ->]. simpl.
    rewrite Htemps. simpl. unfold lt, gt.
    rewrite !(compare_numeric _ _ _ Hnum). simpl.
    rewrite mask_or_map.
    rewrite (List.map_ext _ out_of_range (fun x => eq_sym (out_of_range_split x))).
    rewrite (getitem_select _ _ _ _ Hids). simpl.
    unfold len, select. simpl.
    rewrite keep_count by (symmetry; apply (getitem_length _ _ _ Htemps)).
    reflexivity.
  - apply firstn_NoDup, unique_NoDup.
  - apply firstn_le_length.
  - intros x Hx. apply firstn_elem in Hx. now apply (proj1 (unique_elem _ _)) in Hx.
  - intros q. simpl. apply bool_decide_eq_true.
  - repeat split; vm_compute; reflexivity.
Qed.

(** *** Batch yield *)

Lemma yield_ratio_bounds (k n : Z) :
  0 <= k <= n ->
  (Q2Qc 0 <= Q2Qc (inject_Z k) / Q2Qc (inject_Z n) * Q2Qc (inject_Z 100)
   /\ Q2Qc (inject_Z k) / Q2Qc (inject_Z n) * Q2Qc (inject_Z 100)
      <= Q2Qc (inject_Z 100))%Qc.
Proof.
  intros Hk.
  unfold Qcle, Qcdiv, Qcmult, Qcinv, Q2Qc. simpl this.
  rewrite !Qred_correct.
  assert (H0 : (0 <= inject_Z k)%Q) by (rewrite <- (Zle_Qle 0); lia).
  destruct (Z.eq_dec n 0) as [->|Hn].
  - assert (k = 0) as -> by lia. split; vm_compute; discriminate.
  - assert (Hpos : (0 < inject_Z n)%Q) by (rewrite <- (Zlt_Qlt 0); lia).
    assert (Hr : (0 <= inject_Z k * / inject_Z n)%Q).
    { apply Qle_shift_div_l; [exact Hpos|]. rewrite Qmult_0_l. exact H0. }
    assert (Hr1 : (inject_Z k * / inject_Z n <= 1)%Q).
    { apply Qle_shift_div_r; [exact Hpos|]. rewrite Qmult_1_l.
      rewrite <- Zle_Qle. lia. }
    split.
    + apply Qmult_le_0_compat; [exact Hr|]. vm_compute; discriminate.
    + eapply Qle_trans.
      * apply Qmult_le_compat_r; [exact Hr1|]. vm_compute; discriminate.
      * rewrite Qmult_1_l. apply Qle_refl.
Qed.

Lemma sum_bounds mask : 0 <= Pd.sum mask <= Z.of_nat (length mask).
Proof.
  unfold Pd.sum. split; [lia|]. apply inj_le, length_filter.
Qed.

(** The yield of a group is a percentage. *)
Lemma yield_pct_bounds x :
  exists q, yield_pct x = Num q /\ (Q2Qc 0 <= q /\ q <= Q2Qc (inject_Z 100))%Qc.
Proof.
  unfold yield_pct. eexists. split; [reflexivity|].
  apply yield_ratio_bounds.
  pose proof (sum_bounds (Pd.eq x (Str "PASS"))) as H.
  replace (length (Pd.eq x (Str "PASS"))) with (length x) in H
    by (symmetry; apply length_map).
  exact H.
Qed.

Lemma compare_all_false op test s :
  Forall (fun x => exists q, x = Num q /\ test q = false) s ->
  compare_scalar op test s = inr (map (fun _ => false) s).
Proof.
  unfold compare_scalar. induction 1 as [|x s (q & -> & Hq) _ IH]; [reflexivity|].
  simpl. rewrite IH, Hq. reflexivity.
Qed.

Lemma all_false_mask {A} (l : list A) :
  Forall (fun b => b = false) (mask_or (map (fun _ => false) l) (map (fun _ => false) l)).
Proof. unfold mask_or. induction l; simpl; constructor; auto. Qed.

Lemma yield_check_finds_nothing tests ks vs :
  getitem tests "batch_id" = inr ks ->
  getitem tests "pass_fail" = inr vs ->
  (let* grouped := groupby_agg tests "batch_id" "pass_fail" yield_pct in
   let batch_yield := {| columns := ["batch_id"; "yield_pct"];
                         rows := rows grouped |} in
   let* y := getitem batch_yield "yield_pct" in
   let* low := lt y (Q2Qc 0) in
   let* high := gt y (Q2Qc (inject_Z 100)) in
   let invalid_yield := select batch_yield (mask_or low high) in
   let* ids := getitem invalid_yield "batch_id" in
   ret (len invalid_yield, firstn 10 ids))
  = inr (0, []).
Proof.
  intros Hks Hvs. unfold groupby_agg. rewrite Hks, Hvs. simpl.
  rewrite map_map. simpl.
  set (y := map _ (group_keys ks)).
  assert (Hy : Forall (fun x => exists q, x = Num q
                 /\ (Q2Qc 0 <= q /\ q <= Q2Qc (inject_Z 100))%Qc) y).
  { subst y. apply Forall_map, Forall_forall. intros k _. apply yield_pct_bounds. }
  unfold lt, gt.
  rewrite !compare_all_false.
  - simpl. unfold select, len, getitem. simpl.
    rewrite (keep_none _ _ (all_false_mask y)). reflexivity.
  - eapply Forall_impl; [exact Hy|]. intros x (q & -> & _ & Hq).
    exists q. split; [reflexivity|]. apply bool_decide_eq_false_2.
    now apply Qcle_not_lt.
  - eapply Forall_impl; [exact Hy|]. intros x (q & -> & Hq & _).
    exists q. split; [reflexivity|]. apply bool_decide_eq_false_2.
    now apply Qcle_not_lt.
Qed.

(** C10.  On a mapping with a [test_results] table that has the
    [batch_id] and [pass_fail] columns, the batch-yield check returns count
    0 and no examples: every yield it computes is a share of the group's
    rows times 100, hence within 0 and 100, and the filter on yields below
    0 or above 100 selects nothing.  With a non-negative threshold the
    verdict is [PASS]. *)
Theorem C10_yield_never_violates rule data tests ks vs :
  resolve rule = Some BatchYield ->
  data !! "test_results" = Some tests ->
  getitem tests "batch_id" = inr ks ->
  getitem tests "pass_fail" = inr vs ->
  complete rule ->
  0 <= get (Rule.threshold rule) 0 ->
  try_pandas_check rule data = inr (0, [])
  /\ (forall x, exists q,
        yield_pct x = Num q /\ (Q2Qc 0 <= q /\ q <= Q2Qc (inject_Z 100))%Qc)
  /\ exists out v,
       check_rule rule data = (out, inr v)
       /\ Verdict.violations v = 0
       /\ Verdict.details v = []
       /\ Verdict.status v = PASS.
Proof.
  intros Hres Htests Hks Hvs Hc Hthr.
  assert (Htry : try_pandas_check rule data = inr (0, [])).
  { unfold resolve in Hres. unfold try_pandas_check.
    split_dispatch Hres. clear Hres.
    destruct (present_table _ _ _ Htests) as [-> ->].
    cbn [bind]. apply (yield_check_finds_nothing _ _ _ Hks Hvs). }
  split; [exact Htry|]. split; [apply yield_pct_bounds|].
  eexists _, (verdict rule data). rewrite (complete_verdict _ _ Hc).
  split; [reflexivity|].
  unfold verdict, verdict_of, check_result. rewrite Htry. simpl.
  repeat split. unfold spec_status. simpl.
  now rewrite bool_decide_eq_true_2.
Qed.

(** *** Collected examples *)

Lemma collected_at_most_ten rule data n collected :
  try_pandas_check rule data = inr (n, collected) ->
  (length collected <= 10)%nat.
Proof.
  intros H. unfold try_pandas_check in H.
  repeat step H; leaf H;
    solve [apply firstn_le_length | simpl; lia].
Qed.

Lemma deduplicated_examples rule data c n collected :
  resolve rule = Some c -> deduplicates c = true ->
  try_pandas_check rule data = inr (n, collected) ->
  NoDup collected.
Proof.
  intros Hres Hd H. unfold resolve in Hres. unfold try_pandas_check in H.
  repeat match type of Hres with
         | context [match ?x with _ => _ end] =>
             destruct x eqn:?; simpl in Hres, H; try discriminate Hres
         end.
  all: injection Hres as <-; try discriminate Hd.
  all: repeat step H; leaf H.
  all: solve [apply firstn_NoDup, unique_NoDup | constructor].
Qed.

(** The defect-density check lists one wafer id per offending row, in row
    order, and stops at ten. *)
Lemma defect_density_examples rule data n collected :
  resolve rule = Some DefectDensity ->
  try_pandas_check rule data = inr (n, collected) ->
  Z.of_nat (length collected) = Z.min 10 n.
Proof.
  intros Hres H. unfold resolve in Hres. unfold try_pandas_check in H.
  repeat match type of Hres with
         | context [match ?x with _ => _ end] =>
             destruct x eqn:?; simpl in Hres, H; try discriminate Hres
         end.
  clear Hres. repeat step H; leaf H.
  - match goal with
    | E : getitem (select _ _) "wafer_id" = inr _ |- _ =>
        apply getitem_length in E; rewrite length_take, E
    end.
    unfold len. lia.
  - reflexivity.
Qed.

(** C9 (as the code has it).  Whatever the check, at most ten example
    values are collected and the verdict keeps the first five of them.  The
    collected values are distinct for the checks that go through
    [unique()] (linkage, temperature, step order); the defect-density check
    lists one wafer id per offending row instead, so that it collects
    exactly ten entries once ten or more rows offend, repeated ids
    included. *)
Theorem C9_examples_capped rule data out v :
  check_rule rule data = (out, inr v) ->
  exists collected,
    outcome (_execute_pandas_check rule data)
    = inr (Verdict.violations v, collected)
    /\ (length collected <= 10)%nat
    /\ Verdict.details v = firstn 5 collected
    /\ (length (Verdict.details v) <= 5)%nat
    /\ (forall c, resolve rule = Some c -> deduplicates c = true ->
                  NoDup collected)
    /\ (resolve rule = Some DefectDensity -> Verdict.violations v <> -1 ->
        Z.of_nat (length collected) = Z.min 10 (Verdict.violations v)).
Proof.
  intros H.
  apply check_rule_inv in H as (rid & nm & cat & sev & Hid & _ & _ & _ & ->).
  exists (check_result rule data).2. simpl.
  split; [rewrite (execute_returns _ _ _ Hid); now destruct (check_result rule data)|].
  unfold check_result.
  destruct (try_pandas_check rule data) as [e|[n collected]] eqn:Htry; simpl.
  - split; [lia|]. split; [reflexivity|]. split; [lia|].
    split; [intros; apply NoDup_singleton|]. intros _ Hne. now contradict Hne.
  - split; [apply (collected_at_most_ten _ _ _ _ Htry)|].
    split; [reflexivity|]. split; [apply firstn_le_length|].
    split.
    + intros c Hres Hd. apply (deduplicated_examples _ _ _ _ _ Hres Hd Htry).
    + intros Hres _. apply (defect_density_examples _ _ _ _ Hres Htry).
Qed.

(** *** Completeness of [pass_fail] *)

Lemma sum_count {A} (p : A -> bool) l :
  Pd.sum (map p l) = Z.of_nat (length (filter p l)).
Proof.
  unfold Pd.sum. f_equal. induction l as [|x l IH]; [reflexivity|].
  simpl. destruct (p x) eqn:Hp.
  - rewrite (filter_cons_True (fun b => b = true)) by reflexivity.
    rewrite (filter_cons_True (fun x => p x)) by (now rewrite Hp).
    simpl. now rewrite IH.
  - rewrite (filter_cons_False (fun b => b = true)) by discriminate.
    rewrite (filter_cons_False (fun x => p x)) by (now rewrite Hp).
    exact IH.
Qed.

Lemma not_in_pass_fail l :
  length (filter (fun x => negb (bool_decide (x ∈ [Str "PASS"; Str "FAIL"]))) l)
  = (length (filter is_null l) + length (filter bad_value l))%nat.
Proof.
  induction l as [|x l IH]; [reflexivity|].
  unfold bad_value, is_null in *.
  destruct (decide (x = NaN)) as [->|Hx].
  - rewrite filter_cons_True by done.
    rewrite (filter_cons_True (fun x => bool_decide (x = NaN))) by done.
    rewrite (filter_cons_False _ NaN) by (simpl; tauto).
    simpl. now rewrite IH.
  - rewrite (filter_cons_False (fun x => bool_decide (x = NaN)))
      by (rewrite bool_decide_eq_false_2; [tauto|exact Hx]).
    destruct (bool_decide (x ∈ [Str "PASS"; Str "FAIL"])) eqn:Hin.
    + rewrite !filter_cons_False; [exact IH| |].
      * rewrite Hin, andb_false_r. tauto.
      * rewrite Hin. tauto.
    + rewrite !filter_cons_True; [simpl; rewrite IH; lia| |].
      * rewrite Hin, (bool_decide_eq_false_2 _ Hx). done.
      * rewrite Hin. done.
Qed.

(** The [pass_fail] check adds the missing values to the rows outside
    PASS and FAIL; a missing value is outside too, so it is counted twice. *)
Lemma pass_fail_counts_nulls_twice rule data tests pf :
  resolve rule = Some PassFailPresent ->
  data !! "test_results" = Some tests ->
  getitem tests "pass_fail" = inr pf ->
  try_pandas_check rule data
  = inr (Z.of_nat (2 * length (filter is_null pf) + length (filter bad_value pf)), []).
Proof.
  intros Hres Htests Hpf. unfold resolve in Hres. unfold try_pandas_check.
  split_dispatch Hres. clear Hres.
  destruct (present_table _ _ _ Htests) as [-> ->]. simpl.
  rewrite Hpf. simpl. unfold isna, isin, mask_not, len, select. simpl.
  rewrite map_map, (sum_count (fun x => bool_decide (x = NaN))).
  rewrite (keep_count (fun x => negb (bool_decide (x ∈ [Str "PASS"; Str "FAIL"]))))
    by (symmetry; apply (getitem_length _ _ _ Hpf)).
  rewrite not_in_pass_fail. unfold is_null.
  do 2 f_equal. lia.
Qed.

(** *** Linkage of test results to batches *)

(** The linkage check is guarded on a table named [wafer_tests]; without
    one it reports nothing, whatever [test_results] holds. *)
Lemma linkage_needs_wafer_tests rule data :
  resolve rule = Some Linkage ->
  data !! "wafer_tests" = None ->
  try_pandas_check rule data = inr (0, []).
Proof.
  intros Hres Habs. unfold resolve in Hres. unfold try_pandas_check.
  split_dispatch Hres. clear Hres.
  rewrite (absent_table _ _ Habs). reflexivity.
Qed.

(** ** Further properties of the checks *)

(** X1.  A rule that carries its keys but matches none of the recognised
    checks (an unknown category, or a known category whose descriptor names
    no implemented check) is a no-op: the check returns count 0 without
    examples, raises nothing and prints nothing, whatever the tables hold. *)
Theorem X1_unrecognised_rule_is_no_op rule data cat sql nm :
  Rule.category rule = Some cat ->
  Rule.check_sql rule = Some sql ->
  Rule.name rule = Some nm ->
  resolve rule = None ->
  try_pandas_check rule data = inr (0, [])
  /\ _execute_pandas_check rule data = ([], inr (0, []))
  /\ (complete rule -> 0 <= get (Rule.threshold rule) 0 ->
      exists v, check_rule rule data = ([], inr v)
                /\ Verdict.violations v = 0
                /\ Verdict.details v = []
                /\ Verdict.status v = PASS).
Proof.
  intros Hcat Hsql Hnm Hres.
  assert (Htry : try_pandas_check rule data = inr (0, [])).
  { unfold resolve in Hres. unfold try_pandas_check.
    rewrite Hcat, Hsql, Hnm in *. simpl in *.
    split_dispatch Hres; try reflexivity.
    destruct (has_table "test_results" data); reflexivity. }
  assert (Hx : _execute_pandas_check rule data = ([], inr (0, []))).
  { unfold _execute_pandas_check. now rewrite Htry. }
  split; [exact Htry|]. split; [exact Hx|].
  intros Hc Hthr. exists (verdict rule data).
  rewrite (complete_verdict _ _ Hc), Hx. split; [reflexivity|].
  unfold verdict, verdict_of, check_result. rewrite Htry. simpl.
  repeat split. unfold spec_status. simpl. now rewrite bool_decide_eq_true_2.
Qed.

Lemma keep_count_rows df c s (p : Cell -> bool) :
  getitem df c = inr s ->
  len (select df (map p s)) = Z.of_nat (length (filter p s)).
Proof.
  intros H. unfold len, select. simpl.
  now rewrite keep_count by (symmetry; apply (getitem_length _ _ _ H)).
Qed.

(** X2.  On an [equipment_logs] table with a numeric [pressure_torr] column
    the pressure check counts the rows whose pressure is below 0.001 or above
    1000; a missing reading is not counted, and the check never collects an
    example, however many rows offend. *)
Theorem X2_pressure_counts_only rule data logs ps :
  resolve rule = Some Pressure ->
  data !! "equipment_logs" = Some logs ->
  getitem logs "pressure_torr" = inr ps ->
  Forall numeric ps ->
  try_pandas_check rule data
  = inr (Z.of_nat (length (filter pressure_out_of_range ps)), [])
  /\ (length (filter pressure_out_of_range ps) <= length (rows logs))%nat
  /\ pressure_out_of_range NaN = false.
Proof.
  intros Hres Hlogs Hps Hnum. split; [|split; [|reflexivity]].
  - unfold resolve in Hres. unfold try_pandas_check.
    split_dispatch Hres. clear Hres.
    destruct (present_table _ _ _ Hlogs) as [-> ->]. simpl.
    rewrite Hps. simpl. unfold lt, gt.
    rewrite !(compare_numeric _ _ _ Hnum). simpl.
    rewrite mask_or_map.
    rewrite (List.map_ext _ pressure_out_of_range).
    + now rewrite (keep_count_rows _ _ _ _ Hps).
    + intros [| |q|]; try reflexivity. simpl. now rewrite bool_decide_or.
  - rewrite <- (getitem_length _ _ _ Hps). apply length_filter.
Qed.

Lemma filter_cons_length {A} (p : A -> bool) x l :
  length (filter p (x :: l))
  = ((if p x then 1 else 0) + length (filter p l))%nat.
Proof.
  destruct (p x) eqn:Hp.
  - now rewrite filter_cons_True by (now rewrite Hp).
  - now rewrite filter_cons_False by (now rewrite Hp).
Qed.

Lemma blank_count s :
  Pd.sum (isna s) + Pd.sum (Pd.eq s (Str ""))
  = Z.of_nat (length (filter blank s)).
Proof.
  unfold isna, Pd.eq. rewrite !sum_count, <- Nat2Z.inj_add. f_equal.
  induction s as [|x s IH]; [reflexivity|].
  rewrite !filter_cons_length, <- IH. unfold blank.
  destruct x as [|t|q|t]; [simpl; lia| |simpl; lia|simpl; lia].
  destruct (decide (t = "")) as [->|Ht]; [simpl; lia|].
  rewrite (bool_decide_eq_false_2 (Str t = Str "")) by congruence.
  simpl. lia.
Qed.

(** X3.  The two identifier-completeness checks ([wafer_id] of
    [test_results], [equipment_id] of [equipment_logs]) count the rows whose
    identifier is missing or the empty string, each such row once, so the
    count never exceeds the number of rows; they collect no example. *)
Theorem X3_identifier_completeness rule data c t col df ids :
  resolve rule = Some c ->
  identifier_of c = Some (t, col) ->
  data !! t = Some df ->
  getitem df col = inr ids ->
  try_pandas_check rule data = inr (Z.of_nat (length (filter blank ids)), [])
  /\ (length (filter blank ids) <= length (rows df))%nat.
Proof.
  intros Hres Hid Hdf Hids. split.
  - unfold resolve in Hres. unfold try_pandas_check.
    split_dispatch Hres; injection Hres as <-; simpl in Hid;
      try discriminate Hid; injection Hid as <- <-;
      destruct (present_table _ _ _ Hdf) as [-> ->]; simpl;
      rewrite Hids; simpl; now rewrite blank_count.
  - rewrite <- (getitem_length _ _ _ Hids). apply length_filter.
Qed.

(** X5.  On a [test_results] table with a numeric [defect_density] column
    the defect-density check counts the rows with a negative density and
    lists the wafer ids of the first ten of them, in row order and without
    removing repeats; missing densities are not counted. *)
Theorem X5_defect_density rule data tests d wafers :
  resolve rule = Some DefectDensity ->
  data !! "test_results" = Some tests ->
  getitem tests "defect_density" = inr d ->
  Forall numeric d ->
  getitem tests "wafer_id" = inr wafers ->
  try_pandas_check rule data
  = inr (Z.of_nat (length (filter negative d)),
         firstn 10 (keep wafers (map negative d)))
  /\ length (keep wafers (map negative d)) = length (filter negative d)
  /\ negative NaN = false.
Proof.
  intros Hres Htests Hd Hnum Hw. split; [|split; [|reflexivity]].
  - unfold resolve in Hres. unfold try_pandas_check.
    split_dispatch Hres. clear Hres.
    destruct (present_table _ _ _ Htests) as [-> ->]. simpl.
    rewrite Hd. simpl. unfold lt.
    rewrite (compare_numeric _ _ _ Hnum). simpl.
    change (map _ d) with (map negative d).
    rewrite (getitem_select _ _ _ _ Hw). simpl.
    now rewrite (keep_count_rows _ _ _ _ Hd).
  - apply keep_count.
    now rewrite (getitem_length _ _ _ Hw), (getitem_length _ _ _ Hd).
Qed.

(** *** Checks that raise *)

(** What becomes of an exception raised inside the [try] block. *)
Lemma raised_gives_error rule data e :
  try_pandas_check rule data = inl e ->
  complete rule ->
  exists v,
    check_rule rule data
    = ([RuleError (get (Rule.rule_id rule) "") (str e)], inr v)
    /\ Verdict.violations v = -1
    /\ Verdict.details v = [Str ("Error: " +:+ str e)]
    /\ Verdict.status v = ERROR.
Proof.
  intros Htry Hc. exists (verdict rule data).
  rewrite (complete_verdict _ _ Hc). split.
  - unfold _execute_pandas_check. rewrite Htry.
    destruct Hc as ([rid ->] & _). reflexivity.
  - unfold verdict, verdict_of, check_result. rewrite Htry. simpl.
    repeat split.
Qed.

Lemma missing_column df c :
  index_of c (columns df) = None -> getitem df c = inl (KeyError c).
Proof. intros H. unfold getitem. now rewrite H. Qed.

(** X9.  When the table of a guarded check is present but lacks the column
    the check reads first, the check raises [KeyError] for that column; the
    handler turns it into count [-1] with the single example
    ["Error: '<column>'"], and the verdict of a complete rule is [ERROR]. *)
Theorem X9_missing_column_is_error rule data c t col df :
  resolve rule = Some c ->
  guarded_table c = Some t ->
  first_column c = Some col ->
  data !! t = Some df ->
  index_of col (columns df) = None ->
  complete rule ->
  try_pandas_check rule data = inl (KeyError col)
  /\ exists v,
       check_rule rule data
       = ([RuleError (get (Rule.rule_id rule) "") ("'" +:+ col +:+ "'")], inr v)
       /\ Verdict.violations v = -1
       /\ Verdict.details v = [Str ("Error: '" +:+ col +:+ "'")]
       /\ Verdict.status v = ERROR.
Proof.
  intros Hres Hguard Hcol Hdf Hidx Hc.
  assert (Htry : try_pandas_check rule data = inl (KeyError col)).
  { pose proof (missing_column _ _ Hidx) as Hget.
    unfold resolve in Hres. unfold try_pandas_check.
    split_dispatch Hres; injection Hres as <-; simpl in Hguard, Hcol;
      try discriminate Hguard; injection Hguard as <-; injection Hcol as <-;
      destruct (present_table _ _ _ Hdf) as [-> ->]; simpl;
      unfold groupby_agg, groupby_size, sort_values; rewrite ?Hget; reflexivity. }
  split; [exact Htry|]. apply (raised_gives_error _ _ _ Htry Hc).
Qed.

Lemma compare_text op test s :
  Exists (fun x => ~ numeric x) s ->
  exists msg, compare_scalar op test s = inl (TypeError msg).
Proof.
  unfold compare_scalar. induction s as [|x s IH]; intros H.
  - inversion H.
  - destruct x as [|t|q|t]; simpl.
    + apply Exists_cons in H as [H|H]; [now contradict H|].
      destruct (IH H) as [msg ->]. now exists msg.
    + eexists. reflexivity.
    + apply Exists_cons in H as [H|H]; [now contradict H|].
      destruct (IH H) as [msg ->]. now exists msg.
    + eexists. reflexivity.
Qed.

(** X10.  One entry that is not a number in the column a range check
    compares (defect density, temperature, pressure) makes the whole check
    raise [TypeError], whatever the other rows hold: the rule ends with
    count [-1] and status [ERROR] instead of a count of the offending rows. *)
Theorem X10_text_in_numeric_column_is_error rule data c t col df s :
  resolve rule = Some c ->
  guarded_table c = Some t ->
  compared_column c = Some col ->
  data !! t = Some df ->
  getitem df col = inr s ->
  Exists (fun x => ~ numeric x) s ->
  complete rule ->
  exists msg,
    try_pandas_check rule data = inl (TypeError msg)
    /\ exists v,
         outcome (check_rule rule data) = inr v
         /\ Verdict.violations v = -1
         /\ Verdict.details v = [Str ("Error: " +:+ msg)]
         /\ Verdict.status v = ERROR.
Proof.
  intros Hres Hguard Hcol Hdf Hs Htext Hc.
  assert (Htry : exists msg, try_pandas_check rule data = inl (TypeError msg)).
  { unfold resolve in Hres. unfold try_pandas_check.
    split_dispatch Hres; injection Hres as <-; simpl in Hguard, Hcol;
      try discriminate Hcol; injection Hguard as <-; injection Hcol as <-;
      destruct (present_table _ _ _ Hdf) as [-> ->]; simpl;
      rewrite Hs; simpl; unfold lt;
      match goal with
      | |- context [compare_scalar ?op ?test s] =>
          destruct (compare_text op test _ Htext) as [msg ->]
      end;
      exists msg; reflexivity. }
  destruct Htry as [msg Htry]. exists msg. split; [exact Htry|].
  destruct (raised_gives_error _ _ _ Htry Hc) as (v & Hv & H1 & H2 & H3).
  exists v. rewrite Hv. repeat split; assumption.
Qed.

(** X8.  The one path on which an absent table is an error: with tables
    named [wafer_tests] and [wafer_batches] present and [test_results]
    absent, the linkage check passes its guard and raises [KeyError] on
    [test_results]; the verdict of a complete rule is [ERROR] with the
    example ["Error: 'test_results'"]. *)
Theorem X8_linkage_without_test_results rule data aliased batches :
  resolve rule = Some Linkage ->
  data !! "wafer_tests" = Some aliased ->
  data !! "wafer_batches" = Some batches ->
  data !! "test_results" = None ->
  complete rule ->
  try_pandas_check rule data = inl (KeyError "test_results")
  /\ exists v,
       outcome (check_rule rule data) = inr v
       /\ Verdict.violations v = -1
       /\ Verdict.details v = [Str "Error: 'test_results'"]
       /\ Verdict.status v = ERROR.
Proof.
  intros Hres Ha Hb Ht Hc.
  assert (Htry : try_pandas_check rule data = inl (KeyError "test_results")).
  { unfold resolve in Hres. unfold try_pandas_check.
    split_dispatch Hres. clear Hres.
    destruct (present_table _ _ _ Ha) as [-> _].
    destruct (present_table _ _ _ Hb) as [-> _]. simpl.
    unfold table. now rewrite Ht. }
  split; [exact Htry|].
  destruct (raised_gives_error _ _ _ Htry Hc) as (v & Hv & H1 & H2 & H3).
  exists v. rewrite Hv. repeat split; assumption.
Qed.

(** ** Further properties of the driver *)

(** X11.  A run that returns leaves the catalogue and the data directory of
    the checker as they were and touches the stored results of no other
    layer; it stores the returned list under its own layer, replacing what
    was there, and stores nothing when it returns [None]. *)
Theorem X11_run_checks_frame self layer out self' returned :
  run_checks self layer = (out, inr (self', returned)) ->
  rules self' = rules self
  /\ data_dir self' = data_dir self
  /\ (forall other, other <> layer ->
        results self' !! other = results self !! other)
  /\ (returned = None -> self' = self)
  /\ (forall found, returned = Some found ->
        results self' = <[layer := found]> (results self)).
Proof.
  rewrite run_checks_unfold. cbn zeta.
  destruct (bool_decide (size (loaded self layer) = 0%nat)).
  - intros H. injection H as _ <- <-.
    repeat split; try reflexivity. discriminate.
  - destruct (outcome (run_rules layer (loaded self layer) (rules self) []))
      as [e|found]; [discriminate|].
    intros H. injection H as _ <- <-. simpl.
    split; [reflexivity|]. split; [reflexivity|]. split; [|split].
    + intros other Hne. now apply lookup_insert_ne.
    + discriminate.
    + intros f Hf. now injection Hf as <-.
Qed.

Lemma status_partition rs :
  (count_status PASS rs + count_status WARNING rs
   + count_status FAIL rs + count_status ERROR rs = length rs)%nat.
Proof.
  unfold count_status. induction rs as [|v rs IH]; [reflexivity|].
  rewrite !filter_cons. simpl length at 5. rewrite <- IH.
  destruct (Verdict.status v);
    repeat case_decide; try discriminate; try congruence; simpl; lia.
Qed.

(** X12.  The console summary prints one line of counts in which passed,
    warnings, failed and errors add up to the number of verdicts, followed by
    a detail block for every [FAIL] verdict and then one for every [WARNING]
    verdict, each in the order of the verdicts; [ERROR] and [PASS] verdicts
    are counted but get no detail block. *)
Theorem X12_summary_accounts_for_every_verdict rs :
  _print_summary rs
  = (Summary (count_status PASS rs) (count_status WARNING rs)
             (count_status FAIL rs) (count_status ERROR rs) (length rs)
     :: map FailureDetail (filter (fun r => Verdict.status r = FAIL) rs)
     ++ map WarningDetail (filter (fun r => Verdict.status r = WARNING) rs),
     inr tt)
  /\ (count_status PASS rs + count_status WARNING rs
      + count_status FAIL rs + count_status ERROR rs = length rs)%nat.
Proof.
  split; [|apply status_partition].
  unfold _print_summary, count_status. cbn zeta.
  set (failed := filter (fun r => Verdict.status r = FAIL) rs).
  set (warned := filter (fun r => Verdict.status r = WARNING) rs).
  destruct failed as [|f failed], warned as [|w warned]; reflexivity.
Qed.

(** *** Loading a layer *)

Lemma load_files_log files data :
  log (load_files files data) = map (fun f => Loaded f.1 (len f.2)) files.
Proof.
  revert data. induction files as [|[name df] rest IH]; intros data.
  - reflexivity.
  - simpl. specialize (IH (<[name := df]> data)).
    destruct (load_files rest _) as [o r]. simpl in *. now rewrite IH.
Qed.

Lemma tables_of_lookup files data name :
  NoDup (map fst files) ->
  tables_of files data !! name
  = match list_find (fun f => f.1 = name) files with
    | Some (_, f) => Some f.2
    | None => data !! name
    end.
Proof.
  revert data. induction files as [|[n df] rest IH]; intros data Hnd.
  - reflexivity.
  - simpl in Hnd. apply NoDup_cons in Hnd as [Hn Hnd].
    change (tables_of ((n, df) :: rest) data)
      with (tables_of rest (<[n := df]> data)).
    rewrite (IH _ Hnd). simpl. destruct (decide (n = name)) as [->|Hne].
    + simpl. destruct (list_find _ rest) as [[i f]|] eqn:Hf.
      * apply list_find_Some in Hf as (Hi & Hname & _).
        exfalso. apply Hn. rewrite <- Hname.
        apply list_elem_of_fmap. exists f. split; [reflexivity|].
        now apply list_elem_of_lookup_2 in Hi.
      * simpl. apply lookup_insert_eq.
    + destruct (list_find _ rest) as [[i f]|]; simpl; [reflexivity|].
      now apply lookup_insert_ne.
Qed.

Lemma tables_of_size files data :
  NoDup (map fst files) ->
  (forall f, f ∈ files -> data !! f.1 = None) ->
  size (tables_of files data) = (length files + size data)%nat.
Proof.
  revert data. induction files as [|[n df] rest IH]; intros data Hnd Hfresh.
  - reflexivity.
  - simpl in Hnd. apply NoDup_cons in Hnd as [Hn Hnd].
    change (tables_of ((n, df) :: rest) data)
      with (tables_of rest (<[n := df]> data)).
    rewrite (IH _ Hnd).
    + rewrite map_size_insert_None by (apply (Hfresh (n, df)); now left).
      simpl. lia.
    + intros f Hf. rewrite lookup_insert_ne.
      * apply Hfresh. now right.
      * intros ->. apply Hn. apply list_elem_of_fmap. now exists f.
Qed.

(** X13.  For a layer directory that exists, [_load_data] prints one line
    per CSV file, in the order the files are listed, with the file's stem and
    row count, and returns a mapping that holds exactly the listed files
    under their stems (stems within one directory being distinct). *)
Theorem X13_load_data_maps_every_file self layer files :
  data_dir self !! layer = Some files ->
  NoDup (map fst files) ->
  _load_data self layer
  = (map (fun f => Loaded f.1 (len f.2)) files, inr (loaded self layer))
  /\ (forall name df,
        loaded self layer !! name = Some df <-> (name, df) ∈ files)
  /\ size (loaded self layer) = length files.
Proof.
  intros Hdir Hnd. split; [|split].
  - rewrite load_data_spec. f_equal.
    unfold _load_data. rewrite Hdir. apply load_files_log.
  - intros name df. unfold loaded. rewrite Hdir.
    rewrite (tables_of_lookup _ _ _ Hnd), lookup_empty. split.
    + destruct (list_find _ files) as [[i [n d]]|] eqn:Hf; [|discriminate].
      apply list_find_Some in Hf as (Hi & Hname & _). simpl in *.
      intros H. injection H as <-. subst n.
      now apply list_elem_of_lookup_2 in Hi.
    + intros Hin.
      destruct (list_find (fun f => f.1 = name) files) as [[i [n d]]|] eqn:Hf.
      * apply list_find_Some in Hf as (Hi & Hname & _). simpl in *. subst n.
        apply list_elem_of_lookup_2 in Hi. f_equal.
        apply list_elem_of_lookup in Hi as [j Hj], Hin as [k Hk].
        assert (j = k) as ->.
        { apply (NoDup_lookup _ _ _ name Hnd);
            rewrite list_lookup_fmap; [now rewrite Hj|now rewrite Hk]. }
        congruence.
      * exfalso. apply list_find_None in Hf.
        rewrite Forall_forall in Hf. now apply (Hf _ Hin).
  - unfold loaded. rewrite Hdir.
    rewrite tables_of_size; [now rewrite map_size_empty, Nat.add_0_r|exact Hnd|].
    intros f _. apply lookup_empty.
Qed.

(** *** Completeness of [pass_fail], in general *)

(** X4.  On a [test_results] table with a [pass_fail] column the check
    returns the number of rows that are missing or outside PASS and FAIL,
    plus the number of missing rows once more: every missing value is
    counted twice, so the count exceeds the number of offending rows (and
    can exceed the number of rows) as soon as one value is missing. *)
Theorem X4_pass_fail_overcounts rule data tests pf :
  resolve rule = Some PassFailPresent ->
  data !! "test_results" = Some tests ->
  getitem tests "pass_fail" = inr pf ->
  try_pandas_check rule data
  = inr (Z.of_nat (length (filter not_pass_fail pf)
                   + length (filter is_null pf)), [])
  /\ (length (filter not_pass_fail pf) <= length (rows tests))%nat
  /\ (length (filter is_null pf) <= length (filter not_pass_fail pf))%nat.
Proof.
  intros Hres Htests Hpf.
  assert (Hsplit : length (filter not_pass_fail pf)
                   = (length (filter is_null pf) + length (filter bad_value pf))%nat).
  { clear. induction pf as [|x pf IH]; [reflexivity|].
    rewrite !filter_cons_length, IH. unfold not_pass_fail, bad_value.
    destruct (is_null x); simpl; [lia|].
    destruct (negb _); lia. }
  split; [|split].
  - rewrite (pass_fail_counts_nulls_twice _ _ _ _ Hres Htests Hpf).
    do 2 f_equal. lia.
  - rewrite <- (getitem_length _ _ _ Hpf). apply length_filter.
  - lia.
Qed.

(** *** Uniqueness of (batch, wafer) pairs *)

Lemma insert_sorted_perm {A} (leb : A -> A -> bool) x l :
  insert_sorted leb x l ≡ₚ x :: l.
Proof.
  induction l as [|y l IH]; simpl; [reflexivity|].
  destruct (leb x y); [reflexivity|].
  rewrite IH. apply Permutation_swap.
Qed.

(** The sort rearranges and neither drops nor repeats. *)
Lemma sort_perm {A} (leb : A -> A -> bool) l : Pd.sort leb l ≡ₚ l.
Proof.
  unfold Pd.sort. induction l as [|x l IH]; simpl; [reflexivity|].
  now rewrite insert_sorted_perm, IH.
Qed.

Lemma keep_filter {A} (p : A -> bool) xs : keep xs (map p xs) = filter p xs.
Proof.
  induction xs as [|x xs IH]; [reflexivity|]. simpl.
  destruct (p x) eqn:Hp.
  - rewrite filter_cons_True by (now rewrite Hp). now rewrite IH.
  - rewrite filter_cons_False by (now rewrite Hp). exact IH.
Qed.

Lemma more_than_one (c : nat) :
  bool_decide (Q2Qc (inject_Z 1) < Q2Qc (inject_Z (Z.of_nat c)))%Qc
  = bool_decide (1 < c)%nat.
Proof.
  apply bool_decide_ext. unfold Qclt, Q2Qc. simpl this.
  rewrite !Qred_correct, <- Zlt_Qlt. lia.
Qed.

Lemma uniqueness_pipeline tests batch wafer :
  getitem tests "batch_id" = inr batch ->
  getitem tests "wafer_id" = inr wafer ->
  let pairs := present_pairs batch wafer in
  let duplicated := filter (repeated pairs) (Pd.sort pair_leb (unique pairs)) in
  (let* sizes := groupby_size tests "batch_id" "wafer_id" "count" in
   let* n := getitem sizes "count" in
   let* many := gt n (Q2Qc (inject_Z 1)) in
   let duplicates := select sizes many in
   let* ids := getitem duplicates "wafer_id" in
   ret (len duplicates, firstn 10 ids))
  = inr (Z.of_nat (length duplicated), firstn 10 (map snd duplicated)).
Proof.
  intros Hb Hw pairs duplicated. unfold groupby_size. rewrite Hb, Hw. simpl.
  fold (present_pairs batch wafer). fold pairs.
  rewrite map_map. simpl. unfold gt.
  rewrite compare_numeric by (apply Forall_map, Forall_forall; intros; exact I).
  simpl. rewrite map_map. simpl.
  rewrite (List.map_ext _ (repeated pairs))
    by (intros k; apply more_than_one).
  unfold select, len, getitem. simpl.
  rewrite keep_map, keep_filter, !map_map, length_map. simpl.
  reflexivity.
Qed.

(** X6.  On a [test_results] table with [batch_id] and [wafer_id] columns
    the uniqueness check counts the distinct (batch, wafer) pairs that occur
    on more than one row, looking only at rows in which neither identifier
    is missing, and lists the wafer ids of the first ten such pairs in
    sorted order of the pairs.  Each repeated pair is reported once. *)
Theorem X6_uniqueness_counts_repeated_pairs rule data tests batch wafer :
  resolve rule = Some PairUnique ->
  data !! "test_results" = Some tests ->
  getitem tests "batch_id" = inr batch ->
  getitem tests "wafer_id" = inr wafer ->
  let pairs := present_pairs batch wafer in
  let duplicated := filter (repeated pairs) (Pd.sort pair_leb (unique pairs)) in
  try_pandas_check rule data
  = inr (Z.of_nat (length duplicated), firstn 10 (map snd duplicated))
  /\ NoDup duplicated
  /\ (forall k, k ∈ duplicated <-> (1 < occurrences k pairs)%nat)
  /\ (forall k, k ∈ duplicated -> k.1 <> NaN /\ k.2 <> NaN).
Proof.
  intros Hres Htests Hb Hw pairs duplicated.
  assert (Hmem : forall k, k ∈ duplicated <-> (1 < occurrences k pairs)%nat).
  { intros k. unfold duplicated.
    rewrite list_elem_of_filter, sort_perm, unique_elem.
    unfold repeated. rewrite bool_decide_spec. split; [tauto|].
    intros Hk. split; [exact Hk|].
    unfold occurrences in Hk.
    destruct (filter (fun p => p = k) pairs) as [|p ps] eqn:Hf; [simpl in Hk; lia|].
    assert (Hp : p ∈ filter (fun p => p = k) pairs) by (rewrite Hf; now left).
    apply list_elem_of_filter in Hp as [-> Hp]. exact Hp. }
  split; [|split; [|split]].
  - unfold resolve in Hres. unfold try_pandas_check.
    split_dispatch Hres. clear Hres.
    destruct (present_table _ _ _ Htests) as [-> ->].
    cbn [bind]. apply (uniqueness_pipeline _ _ _ Hb Hw).
  - apply NoDup_filter. rewrite sort_perm. apply unique_NoDup.
  - exact Hmem.
  - intros k Hk. apply Hmem in Hk. unfold occurrences in Hk.
    destruct (filter (fun p => p = k) pairs) as [|p ps] eqn:Hf; [simpl in Hk; lia|].
    assert (Hp : p ∈ filter (fun p => p = k) pairs) by (rewrite Hf; now left).
    apply list_elem_of_filter in Hp as [-> Hp].
    unfold pairs, present_pairs in Hp.
    now apply list_elem_of_filter in Hp as [Hp _].
Qed.

(** *** Linkage of test results to batches, in general *)




Lemma index_of_None c cs : index_of c cs = None <-> c ∉ cs.
Proof.
  induction cs as [|c' cs IH]; simpl.
  - split; [intros _; apply not_elem_of_nil|reflexivity].
  - rewrite not_elem_of_cons. destruct (String.eqb_spec c c') as [->|Hne].
    + split; [discriminate|tauto].
    + destruct (index_of c cs) as [k|]; simpl.
      * split; [discriminate|]. intros [_ H]. now apply IH in H.
      * split; [|reflexivity]. intros _. split; [exact Hne|now apply IH].
Qed.


Lemma index_of_last key pre :
  key ∉ pre -> index_of key (pre ++ [key]) = Some (length pre).
Proof.
  induction pre as [|c pre IH]; intros H; simpl.
  - now rewrite String.eqb_refl.
  - apply not_elem_of_cons in H as [Hne H].
    destruct (String.eqb_spec key c) as [->|_]; [now contradict Hne|].
    now rewrite (IH H).
Qed.




(** *** The merge behind the linkage check *)

Lemma index_of_app_l key cs rest i :
  index_of key cs = Some i -> index_of key (cs ++ rest) = Some i.
Proof.
  revert i. induction cs as [|c cs IH]; intros i; simpl; [discriminate|].
  destruct (String.eqb key c); [tauto|].
  destruct (index_of key cs) as [k|]; simpl; [|discriminate].
  intros H. now rewrite (IH k eq_refl).
Qed.









(** ** Further properties of the verdict *)

(** A check that returns reports a count, never the sentinel. *)
Lemma count_not_negative rule data n collected :
  try_pandas_check rule data = inr (n, collected) -> 0 <= n.
Proof.
  intros H. unfold try_pandas_check in H.
  repeat step H; leaf H; unfold len, Pd.sum; lia.
Qed.

(** X14.  The sentinel is exact: a verdict carries count [-1] exactly when
    the check raised, and status [ERROR] exactly then; a check that ran to
    its end gives a count of at least 0 and one of the three other
    statuses. *)
Theorem X14_error_iff_check_raised rule data out v :
  check_rule rule data = (out, inr v) ->
  (Verdict.violations v = -1 <-> exists e, try_pandas_check rule data = inl e)
  /\ (Verdict.status v = ERROR <-> exists e, try_pandas_check rule data = inl e)
  /\ (Verdict.violations v <> -1 -> 0 <= Verdict.violations v).
Proof.
  intros H.
  apply check_rule_inv in H as (rid & nm & cat & sev & _ & _ & _ & _ & ->).
  unfold verdict_of, check_result. simpl.
  destruct (try_pandas_check rule data) as [e|[n collected]] eqn:Htry; simpl.
  - split; [|split].
    + split; [intros _; now exists e|reflexivity].
    + split; [intros _; now exists e|reflexivity].
    + intros Hne. now contradict Hne.
  - pose proof (count_not_negative _ _ _ _ Htry) as Hn.
    split; [|split].
    + split; [lia|]. intros [e He]. discriminate He.
    + split; [|intros [e He]; discriminate He].
      unfold spec_status. rewrite bool_decide_eq_false_2 by lia.
      repeat case_bool_decide; discriminate.
    + intros _. exact Hn.
Qed.

(** X15.  The threshold is taken from the rule as it is, also when it is
    negative, and then no rule can pass: a check that finds nothing still
    exceeds the threshold, so the verdict is [FAIL] for CRITICAL and HIGH
    rules and [WARNING] for the others (or [ERROR] when the check raised). *)
Theorem X15_negative_threshold_never_passes rule data out v :
  check_rule rule data = (out, inr v) ->
  get (Rule.threshold rule) 0 < 0 ->
  Verdict.threshold v = get (Rule.threshold rule) 0
  /\ Verdict.status v <> PASS
  /\ (Verdict.violations v <> -1 ->
      Verdict.status v
      = if bool_decide (Verdict.severity v ∈ ["CRITICAL"; "HIGH"])
        then FAIL else WARNING).
Proof.
  intros H Hneg.
  apply check_rule_inv in H as (rid & nm & cat & sev & _ & _ & _ & _ & ->).
  unfold verdict_of, check_result. simpl.
  destruct (try_pandas_check rule data) as [e|[n collected]] eqn:Htry; simpl.
  - split; [reflexivity|]. split; [discriminate|]. intros Hne. now contradict Hne.
  - pose proof (count_not_negative _ _ _ _ Htry) as Hn.
    unfold spec_status.
    rewrite (bool_decide_eq_false_2 (n = -1)) by lia.
    rewrite (bool_decide_eq_false_2 (n <= _)) by lia.
    split; [reflexivity|]. split; [|reflexivity].
    case_bool_decide; discriminate.
Qed.

(** ** The report and the command line *)

Lemma report_rule_heading r : filter is_heading (report_rule r) = [heading_of r].
Proof. unfold report_rule. destruct (Verdict.details r); reflexivity. Qed.

Lemma report_rule_examples r :
  filter is_examples (report_rule r)
  = match Verdict.details r with
    | [] => []
    | details => [ExamplesLine details]
    end.
Proof. unfold report_rule. destruct (Verdict.details r); reflexivity. Qed.

Lemma report_rules_headings found :
  filter is_heading (flat_map report_rule found) = map heading_of found.
Proof.
  induction found as [|r found IH]; [reflexivity|].
  change (flat_map report_rule (r :: found))
    with (report_rule r ++ flat_map report_rule found).
  now rewrite filter_app, report_rule_heading, IH.
Qed.

Lemma report_layer_headings layer found :
  filter is_heading (report_layer layer found) = map heading_of found.
Proof.
  unfold report_layer. cbn zeta.
  rewrite !filter_app, report_rules_headings. simpl.
  now rewrite app_nil_r.
Qed.

(** X16.  In the report of a layer every verdict has its own heading, in
    the order of the verdicts and whatever its status, but the summary table
    above them has rows for passed, warnings and failed only: the three
    counts add up to the number of verdicts minus the [ERROR] ones, so an
    errored rule is listed without being counted. *)
Theorem X16_report_lists_errors_uncounted layer found :
  firstn 7 (report_layer layer found)
  = [LayerHeading layer; TableHeader; TableRule;
     PassedRow (count_status PASS found);
     WarningsRow (count_status WARNING found);
     FailedRow (count_status FAIL found);
     DetailedResults]
  /\ filter is_heading (report_layer layer found) = map heading_of found
  /\ (count_status PASS found + count_status WARNING found
      + count_status FAIL found
      = length found - count_status ERROR found)%nat.
Proof.
  split; [reflexivity|]. split.
  - apply report_layer_headings.
  - pose proof (status_partition found). lia.
Qed.

Lemma main_unfold args rs :
  rules_file args = Some rs ->
  main args
  = let checker := {| rules := rs; data_dir := data_root args; results := ∅ |} in
    let run := run_checks checker (layer_arg args) in
    match outcome run with
    | inl e => (log run, inl e)
    | inr (after, returned) =>
        (log run,
         inr (if report_flag args
              then Some (generate_report after
                           match returned with
                           | Some _ => [layer_arg args]
                           | None => []
                           end)
              else None))
    end.
Proof.
  intros Hrs. unfold main, init, _load_rules. rewrite Hrs. simpl.
  destruct (run_checks _ _) as [o [e|[after returned]]]; simpl; [reflexivity|].
  destruct (report_flag args); simpl; now rewrite app_nil_r.
Qed.

(** X17.  Run from the command line with [--report] on a layer without
    data, the engine prints the no-data message, evaluates nothing, and
    still writes a report: the four header writes and no layer section. *)
Theorem X17_main_empty_layer_report args rs :
  rules_file args = Some rs ->
  report_flag args = true ->
  loaded {| rules := rs; data_dir := data_root args; results := ∅ |}
         (layer_arg args) = ∅ ->
  main args
  = ([Banner (layer_arg args); LoadingData (layer_arg args);
      NoDataFound (layer_arg args)],
     inr (Some [Title; Generated; DataDirectory; Separator])).
Proof.
  intros Hrs Hflag Hempty. rewrite (main_unfold _ _ Hrs). cbn zeta.
  rewrite run_checks_unfold. cbn zeta.
  rewrite bool_decide_eq_true_2 by (now apply size_zero_empty).
  rewrite (loaded_empty_quiet _ _ Hempty), Hflag. reflexivity.
Qed.

(** X18.  Run from the command line with [--report] on a layer with data
    and a catalogue whose applicable rules are complete, the engine writes
    the header and exactly one layer section, that of the layer run, holding
    one entry per applicable rule in catalogue order. *)
Theorem X18_main_report_lists_applicable_rules args rs :
  rules_file args = Some rs ->
  report_flag args = true ->
  let checker := {| rules := rs; data_dir := data_root args; results := ∅ |} in
  let layer := layer_arg args in
  let found := map (fun r => verdict r (loaded checker layer))
                   (filter (applicable layer) rs) in
  Forall complete (filter (applicable layer) rs) ->
  loaded checker layer <> ∅ ->
  outcome (main args)
  = inr (Some ([Title; Generated; DataDirectory; Separator]
               ++ report_layer layer found))
  /\ filter is_heading ([Title; Generated; DataDirectory; Separator]
                        ++ report_layer layer found)
     = map heading_of found.
Proof.
  intros Hrs Hflag checker layer found Hall Hdata. split.
  - rewrite (main_unfold _ _ Hrs). cbn zeta. fold checker layer.
    rewrite run_checks_unfold. cbn zeta.
    rewrite bool_decide_eq_false_2 by (now rewrite size_zero_empty).
    rewrite (run_rules_complete _ _ _ [] Hall). simpl. fold found.
    rewrite Hflag. unfold generate_report. simpl.
    rewrite lookup_insert_eq, app_nil_r. reflexivity.
  - rewrite filter_app. simpl. apply report_layer_headings.
Qed.

(** X19.  When the layer has data and an applicable rule lacks a mandatory
    key behind complete ones, the command line stops with [KeyError] for
    that key and writes no report, [--report] or not. *)
Theorem X19_main_stops_without_report args pre bad post key :
  rules_file args = Some (pre ++ bad :: post) ->
  let checker := {| rules := pre ++ bad :: post;
                    data_dir := data_root args; results := ∅ |} in
  Forall complete (filter (applicable (layer_arg args)) pre) ->
  applicable (layer_arg args) bad = true ->
  first_missing bad = Some key ->
  loaded checker (layer_arg args) <> ∅ ->
  outcome (main args) = inl (KeyError key).
Proof.
  intros Hrs checker Hall Happ Hkey Hdata.
  rewrite (main_unfold _ _ Hrs). cbn zeta. fold checker.
  rewrite run_checks_unfold. cbn zeta.
  rewrite bool_decide_eq_false_2 by (now rewrite size_zero_empty).
  simpl rules.
  destruct (run_rules_prefix (layer_arg args) (loaded checker (layer_arg args))
              pre (bad :: post) [] Hall) as (found & _ & ->).
  pose proof (incomplete_rule_raises (layer_arg args)
                (loaded checker (layer_arg args)) bad post found key Happ Hkey) as Hbad.
  destruct (run_rules _ _ (bad :: post) found) as [tail r].
  simpl in Hbad. subst r. reflexivity.
Qed.

(** ** Tables without rows *)

Lemma getitem_no_rows cols c :
  is_Some (index_of c cols) ->
  getitem {| columns := cols; rows := [] |} c = inr [].
Proof. intros [i Hi]. unfold getitem. simpl. now rewrite Hi. Qed.

Lemma setitem_no_rows cols c s :
  exists cols',
    setitem {| columns := cols; rows := [] |} c s
    = {| columns := cols'; rows := [] |}
    /\ is_Some (index_of c cols')
    /\ (forall c', is_Some (index_of c' cols) -> is_Some (index_of c' cols')).
Proof.
  unfold setitem. simpl. destruct (index_of c cols) as [i|] eqn:Hi.
  - exists cols. split; [reflexivity|]. split; [now exists i|tauto].
  - exists (cols ++ [c]). split; [reflexivity|]. split.
    + exists (length cols). apply index_of_last. now apply index_of_None.
    + intros c' [k Hk]. exists k. now apply index_of_app_l.
Qed.

Lemma step_order_no_rows cols parsed :
  is_Some (index_of "batch_id" cols) ->
  is_Some (index_of "process_step_id" cols) ->
  is_Some (index_of "start_time" cols) ->
  to_datetime [] = inr parsed ->
  (let tests := {| columns := cols; rows := [] |} in
   let* tests_sorted := sort_values tests "batch_id" "process_step_id" in
   let* prev := groupby_shift tests_sorted "batch_id" "start_time" in
   let tests_sorted := setitem tests_sorted "prev_time" prev in
   let* start := getitem tests_sorted "start_time" in
   let* start := to_datetime start in
   let tests_sorted := setitem tests_sorted "start_time" (map of_datetime start) in
   let* prev := getitem tests_sorted "prev_time" in
   let* prev := to_datetime prev in
   let tests_sorted := setitem tests_sorted "prev_time" (map of_datetime prev) in
   let* start := getitem tests_sorted "start_time" in
   let* prev := getitem tests_sorted "prev_time" in
   let invalid := dropna (select tests_sorted (lt_series start prev)) in
   let* ids := getitem invalid "batch_id" in
   ret (len invalid, firstn 10 (unique ids)))
  = inr (0, []).
Proof.
  intros Hb Hp Hs Hdt. cbv zeta.
  unfold sort_values, groupby_shift.
  rewrite !getitem_no_rows by assumption. cbn [bind ret mixed existsb andb orb].
  simpl zip. simpl Pd.sort. simpl map.
  rewrite !getitem_no_rows by assumption. cbn [bind ret shift_within].
  cbn [columns].
  destruct (setitem_no_rows cols "prev_time" []) as (c1 & -> & Hp1 & Hk1).
  rewrite getitem_no_rows by (now apply Hk1). cbn [bind]. rewrite Hdt. cbn [bind].
  destruct (setitem_no_rows c1 "start_time" (map of_datetime parsed))
    as (c2 & -> & Hs2 & Hk2).
  rewrite getitem_no_rows by (now apply Hk2). cbn [bind]. rewrite Hdt. cbn [bind].
  destruct (setitem_no_rows c2 "prev_time" (map of_datetime parsed))
    as (c3 & -> & Hp3 & Hk3).
  rewrite !getitem_no_rows by (assumption || now apply Hk3). cbn [bind].
  unfold select, dropna. simpl.
  rewrite getitem_no_rows by (now apply Hk3, Hk2, Hk1). reflexivity.
Qed.

(** X20.  On a table that has the columns a guarded check reads but no
    rows, the check finds nothing: count 0 and no example, whichever of the
    nine guarded checks it is (the step-order check provided
    [pd.to_datetime] accepts an empty column). *)
Theorem X20_empty_table_finds_nothing rule data c t df parsed :
  resolve rule = Some c ->
  guarded_table c = Some t ->
  data !! t = Some df ->
  rows df = [] ->
  Forall (fun col => is_Some (index_of col (columns df))) (columns_read c) ->
  to_datetime [] = inr parsed ->
  try_pandas_check rule data = inr (0, []).
Proof.
  intros Hres Hguard Hdf Hrows Hcols Hdt.
  destruct df as [cols rws]. simpl in Hrows, Hcols. subst rws.
  unfold resolve in Hres. unfold try_pandas_check.
  split_dispatch Hres; injection Hres as <-; simpl in Hguard, Hcols;
    try discriminate Hguard; injection Hguard as <-;
    destruct (present_table _ _ _ Hdf) as [-> ->]; cbn [bind];
    repeat match goal with
           | H : Forall _ (_ :: _) |- _ => apply Forall_cons in H as [? H]
           end.
  all: try (apply (step_order_no_rows _ parsed); assumption).
  all: unfold groupby_agg, groupby_size, select, lt, gt, compare_scalar;
    repeat (progress (cbn [bind ret rows columns keep traverse map mask_or zip_with];
                      rewrite ?getitem_no_rows by assumption));
    reflexivity.
Qed.

(** X21.  Running a layer again on the checker a run left behind prints the
    same output, returns the same value and leaves the checker as it is:
    the stored results of the layer are replaced, not appended to. *)
Theorem X21_rerun_changes_nothing self layer out self' returned :
  run_checks self layer = (out, inr (self', returned)) ->
  run_checks self' layer = (out, inr (self', returned)).
Proof.
  intros H. pose proof H as H0. revert H.
  rewrite !run_checks_unfold. cbn zeta.
  assert (Hl : loaded self' layer = loaded self layer
               /\ rules self' = rules self
               /\ log (_load_data self' layer) = log (_load_data self layer)
               /\ (forall found, returned = Some found ->
                   results self' = <[layer := found]> (results self))
               /\ data_dir self' = data_dir self).
  { revert H0. rewrite run_checks_unfold. cbn zeta.
    destruct (bool_decide (size (loaded self layer) = 0%nat)).
    - intros H. injection H as _ <- <-. repeat split. discriminate.
    - destruct (outcome (run_rules layer (loaded self layer) (rules self) []))
        as [e|found]; [discriminate|].
      intros H. injection H as _ <- <-. repeat split.
      intros f Hf. now injection Hf as <-. }
  destruct Hl as (-> & -> & -> & Hres & Hdir).
  destruct (bool_decide (size (loaded self layer) = 0%nat)).
  - intros H. injection H as <- <- <-. reflexivity.
  - destruct (outcome (run_rules layer (loaded self layer) (rules self) []))
      as [e|found]; [discriminate|].
    intros H. injection H as <- Hself <-.
    rewrite (Hres found eq_refl), Hdir, insert_insert_eq.
    rewrite <- Hself. reflexivity.
Qed.

End Engine.

(** ** The results on the samples *)

(** C5.  Three rows without [pass_fail] and two reading MAYBE give a count of
    8, not 5: the three missing values enter the sum a second time among the
    rows outside PASS and FAIL. *)
Theorem C5_pass_fail_double_count :
  getitem pass_fail_tests "pass_fail" = inr pass_fail_column
  /\ length (filter is_null pass_fail_column) = 3%nat
  /\ filter bad_value pass_fail_column = [Str "MAYBE"; Str "MAYBE"]
  /\ try_pandas_check no_timestamps pass_fail_rule
       (tables [("test_results", pass_fail_tests)])
     = inr (8, []).
Proof. vm_compute. repeat split; reflexivity. Qed.

(** C8.  With the tables of the data model, [test_results] and
    [wafer_batches], the linkage check reports nothing although one test
    result refers to an unknown batch: its guard asks for a table named
    [wafer_tests].  Once a table of that name is present as well, the same
    rule counts the unmatched row of [test_results] and lists its batch. *)
Theorem C8_linkage_guard_skips_check :
  resolve linkage_rule = Some Linkage
  /\ try_pandas_check no_timestamps linkage_rule
       (tables [("test_results", orphan_tests); ("wafer_batches", one_batch)])
     = inr (0, [])
  /\ try_pandas_check no_timestamps linkage_rule
       (tables [("wafer_tests", one_batch); ("test_results", orphan_tests);
                ("wafer_batches", one_batch)])
     = inr (1, [Str "B000009"]).
Proof. vm_compute. repeat split; reflexivity. Qed.

(** C2 fails as stated: the temperature check on a mapping without
    [equipment_logs] returns count 0 with no example, and the verdict is
    [PASS], not [ERROR]. *)
Lemma C2_counterexample :
  let data := tables [("test_results", orphan_tests)] in
  resolve temperature_rule = Some Temperature
  /\ data !! "equipment_logs" = None
  /\ _execute_pandas_check no_timestamps temperature_rule data = ([], inr (0, []))
  /\ (exists v, check_rule no_timestamps temperature_rule data = ([], inr v)
               /\ Verdict.status v = PASS)
  /\ ~ (exists diagnostic,
          outcome (_execute_pandas_check no_timestamps temperature_rule data)
          = inr (-1, [diagnostic])).
Proof.
  cbv zeta. split; [reflexivity|]. split; [reflexivity|].
  split; [vm_compute; reflexivity|]. split.
  - eexists. split; vm_compute; reflexivity.
  - intros [d H]. vm_compute in H. discriminate H.
Qed.

(** C3 fails as stated: a catalogue holding a record without [severity] is
    loaded without complaint; the run checks and prints the rule in front of
    it, starts the broken one, and only then stops, with a [KeyError]. *)
Lemma C3_counterexample :
  let dir : gmap string (list (string * DataFrame)) :=
    <["raw" := [("test_results", orphan_tests)]]> ∅ in
  init (Some [defect_rule; no_severity_rule]) dir
  = inr (checker_of [defect_rule; no_severity_rule] [("test_results", orphan_tests)])
  /\ run_checks no_timestamps
       (checker_of [defect_rule; no_severity_rule] [("test_results", orphan_tests)])
       "raw"
     = ([Banner "raw"; LoadingData "raw"; Loaded "test_results" 2;
         LoadedTables 1; ExecutingRules;
         RuleStarted "DQ_DEFECT" "Defect density not negative"; PrintPass;
         RuleStarted "DQ_BROKEN" "Record without severity"],
        inl (KeyError "severity")).
Proof. cbv zeta. split; [reflexivity|]. vm_compute. reflexivity. Qed.

(** C9 fails as stated: on twelve offending rows of one wafer the
    defect-density check collects ten entries, all the same id. *)
Lemma C9_counterexample :
  try_pandas_check no_timestamps defect_rule
    (tables [("test_results", twelve_negative)])
  = inr (12, repeat (Str "B000001_W01") 10)
  /\ ~ NoDup (repeat (Str "B000001_W01") 10).
Proof.
  split; [vm_compute; reflexivity|].
  simpl. intros H. apply NoDup_cons in H as [H _]. apply H. left.
Qed.

(** ** The general results at work *)

(** The sample rules used below carry all four mandatory fields. *)
Lemma sample_complete :
  complete temperature_rule /\ complete defect_rule /\ complete yield_rule.
Proof. unfold complete. simpl. repeat split; eexists; reflexivity. Defined.

(** The policy on the boundary readings: three offending rows against the
    default threshold 0 at severity HIGH give [FAIL]. *)
Lemma C1_status_policy_witness :
  let data := tables [("equipment_logs", boundary_logs)] in
  let v := verdict no_timestamps temperature_rule data in
  check_rule no_timestamps temperature_rule data = ([], inr v)
  /\ Verdict.violations v = 3
  /\ Verdict.status v = FAIL
  /\ Verdict.status v
     = spec_status (Verdict.violations v) (Verdict.threshold v) (Verdict.severity v).
Proof.
  cbv zeta.
  assert (H : check_rule no_timestamps temperature_rule
                (tables [("equipment_logs", boundary_logs)])
              = ([], inr (verdict no_timestamps temperature_rule
                            (tables [("equipment_logs", boundary_logs)]))))
    by (vm_compute; reflexivity).
  split; [exact H|]. split; [vm_compute; reflexivity|].
  split; [vm_compute; reflexivity|].
  exact (proj1 (C1_status_policy no_timestamps _ _ _ _ H)).
Defined.

(** The temperature rule on a mapping that holds [test_results] only. *)
Lemma C2_absent_table_is_no_op_witness :
  let data := tables [("test_results", orphan_tests)] in
  _execute_pandas_check no_timestamps temperature_rule data = ([], inr (0, []))
  /\ exists v,
       check_rule no_timestamps temperature_rule data = ([], inr v)
       /\ Verdict.violations v = 0
       /\ Verdict.details v = []
       /\ Verdict.status v = PASS.
Proof.
  cbv zeta.
  apply (C2_absent_table_is_no_op no_timestamps temperature_rule _
           Temperature "equipment_logs").
  - reflexivity.
  - reflexivity.
  - reflexivity.
  - exact (proj1 sample_complete).
  - simpl. lia.
Defined.

(** A record without [severity] between two complete rules: the rule in
    front of it is evaluated, the one behind it never is. *)
Lemma C3_missing_field_raises_late_witness :
  let self := checker_of [defect_rule; no_severity_rule; yield_rule]
                         [("test_results", orphan_tests)] in
  first_missing no_severity_rule = Some "severity"
  /\ exists tail,
       run_checks no_timestamps self "raw"
       = ([Banner "raw"; LoadingData "raw"]
          ++ log (_load_data self "raw")
          ++ [LoadedTables (size (loaded self "raw")); ExecutingRules]
          ++ flat_map (fun r => rule_log no_timestamps r (loaded self "raw"))
                      (filter (applicable "raw") [defect_rule])
          ++ tail,
          inl (KeyError "severity")).
Proof.
  cbv zeta. split; [reflexivity|].
  refine (proj2 (proj2
    (C3_missing_field_raises_late no_timestamps
       (checker_of [defect_rule; no_severity_rule; yield_rule]
                   [("test_results", orphan_tests)])
       "raw" [defect_rule] no_severity_rule [yield_rule] "severity"
       _ _ _ _ _))).
  - reflexivity.
  - change (Forall complete [defect_rule]).
    apply Forall_cons. split; [exact (proj1 (proj2 sample_complete))|constructor].
  - reflexivity.
  - reflexivity.
  - intros H. apply (f_equal size) in H. vm_compute in H. discriminate H.
Defined.

(** A temperature column holding text makes the temperature check raise;
    the defect-density rule after it is evaluated all the same. *)
Lemma C4_failure_isolated_witness :
  let self := checker_of [temperature_rule; defect_rule]
                         [("equipment_logs", text_logs);
                          ("test_results", orphan_tests)] in
  try_pandas_check no_timestamps temperature_rule (loaded self "raw")
  = inl (not_supported "<" "str")
  /\ exists out self' verdicts,
       run_checks no_timestamps self "raw" = (out, inr (self', Some verdicts))
       /\ results self' !! "raw" = Some verdicts
       /\ length verdicts = length (filter (applicable "raw") (rules self))
       /\ Forall2 (fun rule v =>
             (exists o, check_rule no_timestamps rule (loaded self "raw") = (o, inr v))
             /\ forall e,
                  try_pandas_check no_timestamps rule (loaded self "raw") = inl e ->
                  Verdict.violations v = -1
                  /\ Verdict.details v = [Str ("Error: " +:+ str e)]
                  /\ Verdict.status v = ERROR)
           (filter (applicable "raw") (rules self)) verdicts.
Proof.
  cbv zeta. split; [vm_compute; reflexivity|].
  apply (C4_failure_isolated no_timestamps).
  - change (Forall complete [temperature_rule; defect_rule]).
    apply Forall_cons. split; [exact (proj1 sample_complete)|].
    apply Forall_cons. split; [exact (proj1 (proj2 sample_complete))|constructor].
  - intros H. apply (f_equal size) in H. vm_compute in H. discriminate H.
Defined.

(** The boundary readings: -50 and 500 pass, the three readings beyond them
    are counted, and equipment EQ03, which offends twice, is listed once. *)
Lemma C6_temperature_bounds_witness :
  let data := tables [("equipment_logs", boundary_logs)] in
  getitem boundary_logs "temperature_c" = inr boundary_temps
  /\ Forall numeric boundary_temps
  /\ try_pandas_check no_timestamps temperature_rule data
     = inr (3, [Str "EQ03"; Str "EQ04"]).
Proof.
  cbv zeta.
  assert (Hnum : Forall numeric boundary_temps)
    by (unfold boundary_temps; repeat constructor).
  split; [reflexivity|]. split; [exact Hnum|].
  refine (eq_trans
            (proj1 (C6_temperature_bounds no_timestamps temperature_rule
                      (tables [("equipment_logs", boundary_logs)])
                      boundary_logs boundary_temps boundary_ids
                      _ _ _ Hnum _)) _).
  - reflexivity.
  - reflexivity.
  - reflexivity.
  - reflexivity.
  - vm_compute. reflexivity.
Defined.

(** A data directory without a [staging] layer. *)
Lemma C7_empty_layer_signal_witness :
  let self := checker_of [temperature_rule] [("equipment_logs", boundary_logs)] in
  data_dir self !! "staging" = None
  /\ run_checks no_timestamps self "staging"
     = ([Banner "staging"; LoadingData "staging"; NoDataFound "staging"],
        inr (self, None)).
Proof.
  cbv zeta. split; [reflexivity|].
  refine (proj1 (C7_empty_layer_signal no_timestamps _ "staging" _)).
  reflexivity.
Defined.

(** Twelve offending rows: ten collected, five reported. *)
Lemma C9_examples_capped_witness :
  let data := tables [("test_results", twelve_negative)] in
  let v := verdict no_timestamps defect_rule data in
  Verdict.violations v = 12
  /\ Verdict.details v = repeat (Str "B000001_W01") 5
  /\ exists collected,
       outcome (_execute_pandas_check no_timestamps defect_rule data)
       = inr (Verdict.violations v, collected)
       /\ (length collected <= 10)%nat
       /\ Verdict.details v = firstn 5 collected
       /\ (length (Verdict.details v) <= 5)%nat
       /\ (forall c, resolve defect_rule = Some c -> deduplicates c = true ->
                     NoDup collected)
       /\ (resolve defect_rule = Some DefectDensity -> Verdict.violations v <> -1 ->
           Z.of_nat (length collected) = Z.min 10 (Verdict.violations v)).
Proof.
  cbv zeta. split; [vm_compute; reflexivity|]. split; [vm_compute; reflexivity|].
  apply (C9_examples_capped no_timestamps defect_rule _ []).
  vm_compute. reflexivity.
Defined.

(** Two batches, one all PASS and one all FAIL: yields 100 and 0. *)
Lemma C10_yield_never_violates_witness :
  let data := tables [("test_results", orphan_tests)] in
  try_pandas_check no_timestamps yield_rule data = inr (0, [])
  /\ (forall x, exists q,
        yield_pct x = Num q /\ (Q2Qc 0 <= q /\ q <= Q2Qc (inject_Z 100))%Qc)
  /\ exists out v,
       check_rule no_timestamps yield_rule data = (out, inr v)
       /\ Verdict.violations v = 0
       /\ Verdict.details v = []
       /\ Verdict.status v = PASS.
Proof.
  cbv zeta.
  apply (C10_yield_never_violates no_timestamps yield_rule _ orphan_tests
           [Str "B000001"; Str "B000009"] [Str "PASS"; Str "FAIL"]).
  - reflexivity.
  - reflexivity.
  - reflexivity.
  - reflexivity.
  - exact (proj2 (proj2 sample_complete)).
  - simpl. lia.
Defined.

(** ** The further results at work *)

Lemma more_samples_complete :
  complete linkage_rule /\ complete strict_rule /\ complete pressure_rule.
Proof. unfold complete. simpl. repeat split; eexists; reflexivity. Defined.

(** The humidity rule names no implemented range check. *)
Lemma X1_unrecognised_rule_is_no_op_witness :
  resolve humidity_rule = None
  /\ try_pandas_check no_timestamps humidity_rule
       (tables [("equipment_logs", boundary_logs)]) = inr (0, []).
Proof.
  split; [reflexivity|].
  refine (proj1 (X1_unrecognised_rule_is_no_op no_timestamps humidity_rule _
                   "RANGE" _ "Cleanroom humidity range" _ _ _ _));
    reflexivity.
Defined.

(** Pressures 0.001 and 1000 pass; 1/1024 and 1001 are counted. *)
Lemma X2_pressure_counts_only_witness :
  getitem pressure_logs "pressure_torr" = inr pressure_column
  /\ try_pandas_check no_timestamps pressure_rule
       (tables [("equipment_logs", pressure_logs)]) = inr (2, []).
Proof.
  split; [reflexivity|].
  refine (eq_trans
    (proj1 (X2_pressure_counts_only no_timestamps pressure_rule
              (tables [("equipment_logs", pressure_logs)])
              pressure_logs pressure_column _ _ _ _)) _).
  - reflexivity.
  - reflexivity.
  - reflexivity.
  - unfold pressure_column. repeat constructor.
  - vm_compute. reflexivity.
Defined.

(** One missing and one empty wafer id among four rows. *)
Lemma X3_identifier_completeness_witness :
  try_pandas_check no_timestamps wafer_id_rule
    (tables [("test_results", blank_id_tests)]) = inr (2, []).
Proof.
  refine (eq_trans
    (proj1 (X3_identifier_completeness no_timestamps wafer_id_rule
              (tables [("test_results", blank_id_tests)])
              WaferIdPresent "test_results" "wafer_id" blank_id_tests
              wafer_column _ _ _ _)) _).
  - reflexivity.
  - reflexivity.
  - reflexivity.
  - reflexivity.
  - vm_compute. reflexivity.
Defined.

(** Five offending rows, three of them missing: the count is 5 + 3. *)
Lemma X4_pass_fail_overcounts_witness :
  length (filter not_pass_fail pass_fail_column) = 5%nat
  /\ length (filter is_null pass_fail_column) = 3%nat
  /\ try_pandas_check no_timestamps pass_fail_rule
       (tables [("test_results", pass_fail_tests)]) = inr (8, []).
Proof.
  split; [reflexivity|]. split; [reflexivity|].
  refine (eq_trans
    (proj1 (X4_pass_fail_overcounts no_timestamps pass_fail_rule
              (tables [("test_results", pass_fail_tests)])
              pass_fail_tests pass_fail_column _ _ _)) _).
  - reflexivity.
  - reflexivity.
  - reflexivity.
  - vm_compute. reflexivity.
Defined.

(** Twelve negative densities of one wafer. *)
Lemma X5_defect_density_witness :
  try_pandas_check no_timestamps defect_rule
    (tables [("test_results", twelve_negative)])
  = inr (12, repeat (Str "B000001_W01") 10).
Proof.
  refine (eq_trans
    (proj1 (X5_defect_density no_timestamps defect_rule
              (tables [("test_results", twelve_negative)])
              twelve_negative (repeat (decimal (-1) 2) 12)
              (repeat (Str "B000001_W01") 12) _ _ _ _ _)) _).
  - reflexivity.
  - reflexivity.
  - reflexivity.
  - repeat constructor.
  - reflexivity.
  - vm_compute. reflexivity.
Defined.

(** Twelve rows of one wafer of one batch: one repeated pair. *)
Lemma X6_uniqueness_counts_repeated_pairs_witness :
  try_pandas_check no_timestamps pair_rule
    (tables [("test_results", twelve_negative)])
  = inr (1, [Str "B000001_W01"]).
Proof.
  refine (eq_trans
    (proj1 (X6_uniqueness_counts_repeated_pairs no_timestamps pair_rule
              (tables [("test_results", twelve_negative)])
              twelve_negative (repeat (Str "B000001") 12)
              (repeat (Str "B000001_W01") 12) _ _ _ _)) _).
  - reflexivity.
  - reflexivity.
  - reflexivity.
  - reflexivity.
  - vm_compute. reflexivity.
Defined.


(** A mapping with [wafer_tests] and [wafer_batches] but no [test_results]. *)
Lemma X8_linkage_without_test_results_witness :
  try_pandas_check no_timestamps linkage_rule
    (tables [("wafer_tests", one_batch); ("wafer_batches", one_batch)])
  = inl (KeyError "test_results").
Proof.
  refine (proj1 (X8_linkage_without_test_results no_timestamps linkage_rule
                   (tables [("wafer_tests", one_batch); ("wafer_batches", one_batch)])
                   one_batch one_batch _ _ _ _ _)).
  - reflexivity.
  - reflexivity.
  - reflexivity.
  - reflexivity.
  - exact (proj1 more_samples_complete).
Defined.

(** An [equipment_logs] table without a [temperature_c] column. *)
Lemma X9_missing_column_is_error_witness :
  try_pandas_check no_timestamps temperature_rule
    (tables [("equipment_logs", pressure_logs)])
  = inl (KeyError "temperature_c").
Proof.
  refine (proj1 (X9_missing_column_is_error no_timestamps temperature_rule
                   (tables [("equipment_logs", pressure_logs)])
                   Temperature "equipment_logs" "temperature_c" pressure_logs
                   _ _ _ _ _ _)).
  - reflexivity.
  - reflexivity.
  - reflexivity.
  - reflexivity.
  - reflexivity.
  - exact (proj1 sample_complete).
Defined.

(** The text reading in the temperature column. *)
Lemma X10_text_in_numeric_column_is_error_witness :
  exists msg,
    try_pandas_check no_timestamps temperature_rule
      (tables [("equipment_logs", text_logs)]) = inl (TypeError msg)
    /\ exists v,
         outcome (check_rule no_timestamps temperature_rule
                    (tables [("equipment_logs", text_logs)])) = inr v
         /\ Verdict.violations v = -1
         /\ Verdict.details v = [Str ("Error: " +:+ msg)]
         /\ Verdict.status v = ERROR.
Proof.
  apply (X10_text_in_numeric_column_is_error no_timestamps temperature_rule _
           Temperature "equipment_logs" "temperature_c" text_logs
           [decimal 250 1; Str "hot"]).
  - reflexivity.
  - reflexivity.
  - reflexivity.
  - reflexivity.
  - reflexivity.
  - apply Exists_cons_tl, Exists_cons_hd. simpl. tauto.
  - exact (proj1 sample_complete).
Defined.

(** A run of [raw] on a checker that already holds results for [staging]. *)
Lemma X11_run_checks_frame_witness :
  let self := {| rules := [temperature_rule];
                 data_dir := <["raw" := [("equipment_logs", boundary_logs)]]> ∅;
                 results := <["staging" := []]> ∅ |} in
  exists out self' returned,
    run_checks no_timestamps self "raw" = (out, inr (self', returned))
    /\ rules self' = rules self
    /\ results self' !! "staging" = Some [].
Proof.
  cbv zeta.
  set (self := {| rules := [temperature_rule];
                  data_dir := <["raw" := [("equipment_logs", boundary_logs)]]> ∅;
                  results := <["staging" := []]> ∅ |}).
  destruct (run_checks no_timestamps self "raw")
    as [out [e|[self' returned]]] eqn:H.
  - exfalso. vm_compute in H. discriminate H.
  - exists out, self', returned. split; [reflexivity|].
    destruct (X11_run_checks_frame no_timestamps self "raw" out self' returned H)
      as (Hrules & _ & Hother & _).
    split; [exact Hrules|]. rewrite Hother by discriminate. reflexivity.
Defined.

(** A [raw] directory with two CSV files. *)
Lemma X13_load_data_maps_every_file_witness :
  let files := [("equipment_logs", boundary_logs); ("test_results", orphan_tests)] in
  let self := checker_of [] files in
  _load_data self "raw"
  = ([Loaded "equipment_logs" 6; Loaded "test_results" 2], inr (loaded self "raw"))
  /\ loaded self "raw" !! "test_results" = Some orphan_tests
  /\ size (loaded self "raw") = 2%nat.
Proof.
  cbv zeta.
  destruct (X13_load_data_maps_every_file
              (checker_of [] [("equipment_logs", boundary_logs);
                              ("test_results", orphan_tests)])
              "raw"
              [("equipment_logs", boundary_logs); ("test_results", orphan_tests)])
    as (Hload & Hlook & Hsize).
  - reflexivity.
  - apply NoDup_cons. split; [|apply NoDup_singleton].
    rewrite list_elem_of_singleton. discriminate.
  - split; [exact Hload|]. split; [|exact Hsize].
    apply Hlook. right. left.
Defined.

(** The temperature rule on the text column: [-1] because the check raised. *)
Lemma X14_error_iff_check_raised_witness :
  let data := tables [("equipment_logs", text_logs)] in
  let v := verdict no_timestamps temperature_rule data in
  Verdict.violations v = -1
  /\ (Verdict.violations v = -1
      <-> exists e, try_pandas_check no_timestamps temperature_rule data = inl e).
Proof.
  cbv zeta. split; [reflexivity|].
  refine (proj1 (X14_error_iff_check_raised no_timestamps temperature_rule
                   (tables [("equipment_logs", text_logs)])
                   [RuleError "DQ_TEMP" (str (not_supported "<" "str"))] _ _)).
  vm_compute. reflexivity.
Defined.

(** A no-op rule with threshold [-1]: nothing found, and yet a warning. *)
Lemma X15_negative_threshold_never_passes_witness :
  let data := tables [("equipment_logs", boundary_logs)] in
  let v := verdict no_timestamps strict_rule data in
  Verdict.violations v = 0
  /\ Verdict.status v = WARNING
  /\ Verdict.status v <> PASS.
Proof.
  cbv zeta. split; [reflexivity|]. split; [reflexivity|].
  refine (proj1 (proj2
    (X15_negative_threshold_never_passes no_timestamps strict_rule
       (tables [("equipment_logs", boundary_logs)]) [] _ _ _))).
  - vm_compute. reflexivity.
  - simpl. lia.
Defined.

(** The command line on [staging] when only [raw] exists. *)
Lemma X17_main_empty_layer_report_witness :
  main no_timestamps
    (sample_args [temperature_rule] [("equipment_logs", boundary_logs)] "staging")
  = ([Banner "staging"; LoadingData "staging"; NoDataFound "staging"],
     inr (Some [Title; Generated; DataDirectory; Separator])).
Proof.
  apply (X17_main_empty_layer_report no_timestamps
           (sample_args [temperature_rule] [("equipment_logs", boundary_logs)]
                        "staging")
           [temperature_rule]).
  - reflexivity.
  - reflexivity.
  - reflexivity.
Defined.

(** The command line on [raw] with two rules, the first of which errors. *)
Lemma X18_main_report_lists_applicable_rules_witness :
  let args := sample_args [temperature_rule; defect_rule]
                [("equipment_logs", text_logs); ("test_results", orphan_tests)]
                "raw" in
  exists report,
    outcome (main no_timestamps args) = inr (Some report)
    /\ filter is_heading report
       = [RuleHeading ERROR "DQ_TEMP" "Chamber temperature range";
          RuleHeading PASS "DQ_DEFECT" "Defect density not negative"].
Proof.
  cbv zeta.
  destruct (X18_main_report_lists_applicable_rules no_timestamps
              (sample_args [temperature_rule; defect_rule]
                 [("equipment_logs", text_logs); ("test_results", orphan_tests)]
                 "raw")
              [temperature_rule; defect_rule] eq_refl eq_refl)
    as [Hout Hhead].
  - change (Forall complete [temperature_rule; defect_rule]).
    apply Forall_cons. split; [exact (proj1 sample_complete)|].
    apply Forall_cons. split; [exact (proj1 (proj2 sample_complete))|constructor].
  - intros H. apply (f_equal size) in H. vm_compute in H. discriminate H.
  - eexists. split; [exact Hout|]. rewrite Hhead. vm_compute. reflexivity.
Defined.

(** The command line on the catalogue with the record without severity. *)
Lemma X19_main_stops_without_report_witness :
  outcome (main no_timestamps
             (sample_args [defect_rule; no_severity_rule; yield_rule]
                          [("test_results", orphan_tests)] "raw"))
  = inl (KeyError "severity").
Proof.
  apply (X19_main_stops_without_report no_timestamps
           (sample_args [defect_rule; no_severity_rule; yield_rule]
                        [("test_results", orphan_tests)] "raw")
           [defect_rule] no_severity_rule [yield_rule] "severity").
  - reflexivity.
  - change (Forall complete [defect_rule]).
    apply Forall_cons. split; [exact (proj1 (proj2 sample_complete))|constructor].
  - reflexivity.
  - reflexivity.
  - intros H. apply (f_equal size) in H. vm_compute in H. discriminate H.
Defined.

(** The step-order rule on a [test_results] file that holds its header only. *)
Lemma X20_empty_table_finds_nothing_witness :
  try_pandas_check no_timestamps step_order_rule
    (tables [("test_results", empty_tests)]) = inr (0, []).
Proof.
  apply (X20_empty_table_finds_nothing no_timestamps step_order_rule _
           StepOrder "test_results" empty_tests []).
  - reflexivity.
  - reflexivity.
  - reflexivity.
  - reflexivity.
  - repeat (apply Forall_cons; split; [eexists; reflexivity|]). constructor.
  - reflexivity.
Defined.

(** Running [raw] twice. *)
Lemma X21_rerun_changes_nothing_witness :
  let self := checker_of [temperature_rule] [("equipment_logs", boundary_logs)] in
  exists out self' returned,
    run_checks no_timestamps self "raw" = (out, inr (self', returned))
    /\ run_checks no_timestamps self' "raw" = (out, inr (self', returned)).
Proof.
  cbv zeta.
  set (self := checker_of [temperature_rule] [("equipment_logs", boundary_logs)]).
  destruct (run_checks no_timestamps self "raw")
    as [out [e|[self' returned]]] eqn:H.
  - exfalso. vm_compute in H. discriminate H.
  - exists out, self', returned. split; [reflexivity|].
    exact (X21_rerun_changes_nothing no_timestamps self "raw" out self' returned H).
Defined.
